(** * Xiaomi STYJ02YM vacuum platform: command encoding and state decoding

    Shallow embedding of the two platform files

    - [vacuum.py] (the earlier, mode-agnostic platform), and
    - [custom_components/vacuum-styj02ym/vacuum.py] (the mode-aware platform
      with zone and point cleaning),

    followed by the properties of the translation layer.

    Conventions of the embedding.
    - Python [int] is [Z]; the values a device reports for its properties are
      integers, so a property snapshot is a [gmap string Z].
    - Python [str] is [string], read as ASCII text.
    - Methods of [MiroboVacuum2] are computations in a state-and-exception
      monad over the entity, the commands handed to the device so far and the
      records written to the logger.  Coroutines are run to completion in
      program order. *)

From Stdlib Require Import ZArith Ascii String Decimal DecimalString DecimalZ Lia.
From stdpp Require Import base option list gmap strings fin_maps.

Local Open Scope Z_scope.

(** ** Python built-ins used by the platform *)

Module Py.

(** [str(n)] for an [int]. *)
Definition str (n : Z) : string := NilZero.string_of_int (Z.to_int n).

(** [sep.join(parts)]. *)
Definition join (sep : string) (parts : list string) : string :=
  String.concat sep parts.

Definition is_upper (c : ascii) : bool :=
  ((65 <=? nat_of_ascii c) && (nat_of_ascii c <=? 90))%nat.

Definition is_lower (c : ascii) : bool :=
  ((97 <=? nat_of_ascii c) && (nat_of_ascii c <=? 122))%nat.

Definition is_digit (c : ascii) : bool :=
  ((48 <=? nat_of_ascii c) && (nat_of_ascii c <=? 57))%nat.

(** The characters [int] skips around a literal: tab, line feed, vertical
    tab, form feed, carriage return and space. The separators [\x1c] to
    [\x1f], which [str.strip] drops, are not among them. *)
Definition is_space (c : ascii) : bool :=
  let n := nat_of_ascii c in
  (((9 <=? n) && (n <=? 13)) || (n =? 32))%nat.

Definition upper_char (c : ascii) : ascii :=
  if is_lower c then ascii_of_nat (nat_of_ascii c - 32) else c.

Definition lower_char (c : ascii) : ascii :=
  if is_upper c then ascii_of_nat (nat_of_ascii c + 32) else c.

Fixpoint lower (s : string) : string :=
  match s with
  | EmptyString => EmptyString
  | String c r => String (lower_char c) (lower r)
  end.

(** [s.capitalize()]: first character upper-cased, the rest lower-cased. *)
Definition capitalize (s : string) : string :=
  match s with
  | EmptyString => EmptyString
  | String c r => String (upper_char c) (lower r)
  end.

(** Dropping the white space of [int] on the left and on the right. *)
Fixpoint lstrip (s : string) : string :=
  match s with
  | EmptyString => EmptyString
  | String c r => if is_space c then lstrip r else s
  end.

Fixpoint rstrip (s : string) : string :=
  match s with
  | EmptyString => EmptyString
  | String c r =>
      match rstrip r with
      | EmptyString => if is_space c then EmptyString else String c EmptyString
      | r' => String c r'
      end
  end.

Definition strip (s : string) : string := rstrip (lstrip s).

(** The digits of a decimal literal with its grouping underscores removed:
    an underscore is accepted only between two digits, and the literal has
    at least one digit. [prev] tells whether the previous character was a
    digit. *)
Fixpoint ungroup (prev : bool) (s : string) : option string :=
  match s with
  | EmptyString => if prev then Some EmptyString else None
  | String c r =>
      if is_digit c then String c <$> ungroup true r
      else if Ascii.eqb c "_" then (if prev then ungroup false r else None)
      else None
  end.

Definition digits_value (s : string) : option Z :=
  d ← ungroup false s;
  Z.of_uint <$> NilEmpty.uint_of_string d.

(** [int(s)] for a [str] of ASCII characters, base ten: surrounding white
    space is dropped, one sign is allowed, then a decimal literal of any
    length. [None] stands for [ValueError]. *)
Definition int (s : string) : option Z :=
  match strip s with
  | EmptyString => None
  | String c r =>
      if Ascii.eqb c "-" then Z.opp <$> digits_value r
      else if Ascii.eqb c "+" then digits_value r
      else digits_value (String c r)
  end.

(** [range(n)]. *)
Definition range (n : Z) : list Z := Z.of_nat <$> seq 0 (Z.to_nat n).

End Py.

(** ** Constants of the platform *)

(** The states of [homeassistant.components.vacuum] the platform imports. *)
Inductive RunState :=
  | STATE_CLEANING | STATE_DOCKED | STATE_ERROR
  | STATE_IDLE | STATE_PAUSED | STATE_RETURNING.

Global Instance RunState_eq_dec : EqDecision RunState.
Proof. solve_decision. Defined.

(** A Python [dict] whose iteration order is observed is kept as the list of
    its items in insertion order. *)
Definition FAN_SPEEDS : list (string * Z) :=
  [("Silent", 0); ("Standard", 1); ("Medium", 2); ("Turbo", 3)].

Definition ALL_PROPS : list string :=
  ["run_state"; "mode"; "err_state"; "battary_life"; "box_type"; "mop_type";
   "s_time"; "s_area"; "suction_grade"; "water_grade"; "remember_map";
   "has_map"; "is_mop"; "has_newmap"].

(** [k in d] and [d[k]] on an item list. *)
Fixpoint items_get {V} (k : string) (d : list (string * V)) : option V :=
  match d with
  | [] => None
  | (k', v) :: d' => if decide (k' = k) then Some v else items_get k d'
  end.

(** [sorted(xs, key=...)] for integer keys: stable insertion sort. *)
Fixpoint insert_by {A} (key : A → Z) (x : A) (l : list A) : list A :=
  match l with
  | [] => [x]
  | y :: l' => if key y <=? key x then y :: insert_by key x l' else x :: l
  end.

Definition sorted {A} (key : A → Z) (l : list A) : list A :=
  foldl (λ acc x, insert_by key x acc) [] l.

(** [dict(pairs)]: a later pair overrides an earlier one with the same key. *)
Definition dict (pairs : list (string * Z)) : gmap string Z :=
  list_to_map (reverse pairs).

(** ** Values, commands, faults and log records *)

Inductive pyval :=
  | PyNone
  | PyInt (n : Z)
  | PyStr (s : string).

Global Instance pyval_eq_dec : EqDecision pyval.
Proof. solve_decision. Defined.

(** A raw command: method name and positional parameters. *)
Definition command : Type := string * list pyval.

Inductive exn :=
  | KeyError (key : pyval)
  | TypeError
  | ValueError (arg : string)
  | IndexError
  | OSError (reason : string)            (* transport / connectivity fault *)
  | DeviceException (reason : string).   (* fault reported by python-miio *)

Global Instance exn_eq_dec : EqDecision exn.
Proof. solve_decision. Defined.

Definition is_KeyError (e : exn) : bool :=
  match e with KeyError _ => true | _ => false end.
Definition is_ValueError (e : exn) : bool :=
  match e with ValueError _ => true | _ => false end.
Definition is_OSError (e : exn) : bool :=
  match e with OSError _ => true | _ => false end.
Definition is_DeviceException (e : exn) : bool :=
  match e with DeviceException _ => true | _ => false end.

(** What one call of [Vacuum.raw_command] does: it answers with the list of
    values of the reply, or it raises. *)
Inductive outcome :=
  | Reply (values : list Z)
  | Fault (e : exn).

(** The device behind [miio.Vacuum]: its answer may depend on every command
    it was handed before. *)
Definition Vacuum : Type := list command → command → outcome.

Inductive log_level := ERROR | WARNING | INFO.

Inductive log_arg :=
  | ArgExc (e : exn)
  | ArgInt (n : Z)
  | ArgNames (names : list string).

Record log_record := LogRecord {
  levelname : log_level;
  msg : string;
  args : list log_arg
}.

(** What [device_state_attributes] returns: the attribute mapping, whose
    values are the integers of the snapshot and the decoded state, or the
    diagnostic text. *)
Inductive attr :=
  | AttrInt (n : Z)
  | AttrState (st : RunState).

Inductive attributes :=
  | Attrs (attrs : gmap string attr)
  | Diagnostic (text : string).

(** ** The entity and the monad of its methods *)

(** Fields of [MiroboVacuum2]. The earlier platform has no
    [_last_clean_point]; its methods neither read nor write the field. *)
Record MiroboVacuum2 := {
  _name : string;
  _vacuum : Vacuum;
  _last_clean_point : option (Z * Z);
  vacuum_state : option (gmap string Z);
  _available : bool
}.

(** [MiroboVacuum2(name, vacuum)]. *)
Definition __init__ (name : string) (vacuum : Vacuum) : MiroboVacuum2 :=
  {| _name := name; _vacuum := vacuum; _last_clean_point := None;
     vacuum_state := None; _available := false |}.

Record World := {
  self : MiroboVacuum2;
  sent : list command;        (* commands handed to the device, oldest first *)
  logged : list log_record    (* records given to [_LOGGER], oldest first *)
}.

Inductive result (A : Type) :=
  | Return (a : A)
  | Raise (e : exn).
Global Arguments Return {A} a.
Global Arguments Raise {A} e.

Definition M (A : Type) : Type := World → result A * World.

Global Instance M_ret : MRet M := λ A a w, (Return a, w).

Global Instance M_bind : MBind M := λ A B f m w,
  match m w with
  | (Return a, w') => f a w'
  | (Raise e, w') => (Raise e, w')
  end.

Definition raise {A} (e : exn) : M A := λ w, (Raise e, w).

(** [try: body  except C1 as exc: h1  except C2 as exc: h2 ...]: the first
    clause whose class matches runs; what the body changed before raising
    stays changed. *)
Fixpoint select_handler {A} (clauses : list ((exn → bool) * (exn → M A)))
    (e : exn) : option (M A) :=
  match clauses with
  | [] => None
  | (matches, handler) :: rest =>
      if matches e then Some (handler e) else select_handler rest e
  end.

Definition try_except {A} (body : M A)
    (clauses : list ((exn → bool) * (exn → M A))) : M A := λ w,
  match body w with
  | (Return a, w') => (Return a, w')
  | (Raise e, w') =>
      match select_handler clauses e with
      | Some handler => handler w'
      | None => (Raise e, w')
      end
  end.

Definition get_self : M MiroboVacuum2 := λ w, (Return (self w), w).

Definition with_self (me : MiroboVacuum2) (w : World) : World :=
  {| self := me; sent := sent w; logged := logged w |}.

(** [self.vacuum_state = v] *)
Definition set_vacuum_state (v : option (gmap string Z)) : M () := λ w,
  (Return (),
   with_self {| _name := _name (self w); _vacuum := _vacuum (self w);
                _last_clean_point := _last_clean_point (self w);
                vacuum_state := v; _available := _available (self w) |} w).

(** [self._available = b] *)
Definition set_available (b : bool) : M () := λ w,
  (Return (),
   with_self {| _name := _name (self w); _vacuum := _vacuum (self w);
                _last_clean_point := _last_clean_point (self w);
                vacuum_state := vacuum_state (self w); _available := b |} w).

(** [self._last_clean_point = p] *)
Definition set_last_clean_point (p : option (Z * Z)) : M () := λ w,
  (Return (),
   with_self {| _name := _name (self w); _vacuum := _vacuum (self w);
                _last_clean_point := p;
                vacuum_state := vacuum_state (self w);
                _available := _available (self w) |} w).

(** The world after one more record is logged, and after one more command
    is handed to the device. *)
Definition record_log (r : log_record) (w : World) : World :=
  {| self := self w; sent := sent w; logged := logged w ++ [r] |}.

Definition record_sent (c : command) (w : World) : World :=
  {| self := self w; sent := sent w ++ [c]; logged := logged w |}.

(** [_LOGGER.error(msg, ...)] and [_LOGGER.warning(msg, ...)]. *)
Definition _LOGGER (level : log_level) (m : string) (a : list log_arg) : M () :=
  λ w, (Return (), record_log (LogRecord level m a) w).

(** [self._vacuum.raw_command(method, params)]: the command reaches the
    device, which answers or raises. *)
Definition raw_command (method : string) (params : list pyval) : M (list Z) :=
  λ w,
  match _vacuum (self w) (sent w) (method, params) with
  | Reply values => (Return values, record_sent (method, params) w)
  | Fault e => (Raise e, record_sent (method, params) w)
  end.

(** [self.vacuum_state[key]]: subscripting [None] is a [TypeError], a missing
    key a [KeyError]. *)
Definition vacuum_state_item (key : string) : M Z :=
  me ← get_self;
  match vacuum_state me with
  | None => raise TypeError
  | Some snapshot =>
      match snapshot !! key with
      | Some v => mret v
      | None => raise (KeyError (PyStr key))
      end
  end.

(** ** Methods the two platform files share verbatim *)

Section MiroboVacuum2.

(** The module-level table of the file the class is read from. *)
Variable STATE_CODE_TO_STATE : gmap Z RunState.

(** [STATE_CODE_TO_STATE[int(self.vacuum_state['run_state'])]]; [int] is the
    identity on the integers of a snapshot. *)
Definition state_lookup : M RunState :=
  code ← vacuum_state_item "run_state";
  match STATE_CODE_TO_STATE !! code with
  | Some st => mret st
  | None => raise (KeyError (PyInt code))
  end.

(** Property [state]; Python's [None] is [None]. *)
Definition state : M (option RunState) :=
  me ← get_self;
  match vacuum_state me with
  | Some _ =>
      try_except (st ← state_lookup; mret (Some st))
        [(is_KeyError, λ _,
            code ← vacuum_state_item "run_state";
            _ ← _LOGGER ERROR "STATE not supported, state_code: %s"
                  [ArgInt code];
            mret None)]
  | None => mret None
  end.

(** Property [battery_level]. *)
Definition battery_level : M pyval :=
  me ← get_self;
  match vacuum_state me with
  | Some _ => v ← vacuum_state_item "battary_life"; mret (PyInt v)
  | None => mret PyNone
  end.

(** Property [device_state_attributes]: [attrs] starts empty and is updated
    with the snapshot; ["..." % code] formats the integer with [str]. *)
Definition device_state_attributes : M attributes :=
  me ← get_self;
  match vacuum_state me with
  | Some snapshot =>
      let attrs : gmap string attr := (AttrInt <$> snapshot) ∪ ∅ in
      try_except
        (st ← state_lookup; mret (Attrs (<["status" := AttrState st]> attrs)))
        [(is_KeyError, λ _,
            code ← vacuum_state_item "run_state";
            mret (Diagnostic ("Definition missing for state " +:+ Py.str code)))]
  | None => mret (Attrs ∅)
  end.

(** Property [fan_speed]. *)
Definition fan_speed : M pyval :=
  me ← get_self;
  match vacuum_state me with
  | Some _ =>
      speed ← vacuum_state_item "suction_grade";
      if bool_decide (speed ∈ FAN_SPEEDS.*2) then
        match (filter (λ kv, kv.2 = speed) FAN_SPEEDS).*1 with
        | key :: _ => mret (PyStr key)
        | [] => raise IndexError
        end
      else mret (PyInt speed)
  | None => mret PyNone
  end.

(** Property [fan_speed_list]. *)
Definition fan_speed_list : list string :=
  sorted (λ s, default 0 (items_get s FAN_SPEEDS)) FAN_SPEEDS.*1.

(** Property [available]. *)
Definition available : M bool := me ← get_self; mret (_available me).

(** [_try_command(mask_error, func, ...)]: [call] is the call of [func] on
    the remaining arguments. *)
Definition _try_command {A} (mask_error : string) (call : M A) : M bool :=
  try_except (_ ← call; mret true)
    [(is_DeviceException, λ exc,
        _ ← _LOGGER ERROR mask_error [ArgExc exc];
        mret false)].

Definition async_set_fan_speed (fan_speed : string) : M () :=
  level ←
    match items_get (Py.capitalize fan_speed) FAN_SPEEDS with
    | Some v => mret (Some v)
    | None =>
        try_except
          (match Py.int fan_speed with
           | Some n => mret (Some n)
           | None => raise (ValueError fan_speed)
           end)
          [(is_ValueError, λ exc,
              _ ← _LOGGER ERROR
                    "Fan speed step not recognized (%s). Valid speeds are: %s"
                    [ArgExc exc; ArgNames fan_speed_list];
              mret None)]
    end;
  match level with
  | None => mret ()                (* the [return] of the handler *)
  | Some fan_speed =>
      _ ← _try_command "Unable to set fan speed: %s"
            (raw_command "set_suction" [PyInt fan_speed]);
      mret ()
  end.

Definition async_return_to_base : M () :=
  _ ← _try_command "Unable to return home: %s"
        (raw_command "set_charge" [PyInt 1]);
  mret ().

Definition async_locate : M () :=
  _ ← _try_command "Unable to locate the botvac: %s"
        (raw_command "set_resetpos" [PyInt 1]);
  mret ().

Definition async_send_command (command : string) (params : list pyval)
    : M () :=
  _ ← _try_command "Unable to send command to the vacuum: %s"
        (raw_command command params);
  mret ().

Definition update : M () :=
  try_except
    (state ← raw_command "get_prop" (PyStr <$> ALL_PROPS);
     _ ← set_vacuum_state (Some (dict (zip ALL_PROPS state)));
     set_available true)
    [(is_OSError, λ exc,
        _LOGGER ERROR "Got OSError while fetching the state: %s"
          [ArgExc exc]);
     (is_DeviceException, λ exc,
        _LOGGER WARNING "Got exception while fetching the state: %s"
          [ArgExc exc])].

End MiroboVacuum2.

(** ** [vacuum.py]: the mode-agnostic platform *)

Module Legacy.

Definition STATE_CODE_TO_STATE : gmap Z RunState :=
  list_to_map
    [(1, STATE_IDLE); (2, STATE_IDLE); (3, STATE_CLEANING);
     (4, STATE_RETURNING); (5, STATE_DOCKED)].

Definition state : M (option RunState) := state STATE_CODE_TO_STATE.

Definition async_start : M () :=
  _ ← _try_command "Unable to start the vacuum: %s"
        (raw_command "set_mode_withroom" [PyInt 0; PyInt 1; PyInt 0]);
  mret ().

Definition async_pause : M () :=
  _ ← _try_command "Unable to set start/pause: %s"
        (raw_command "set_mode_withroom" [PyInt 0; PyInt 2; PyInt 0]);
  mret ().

Definition async_stop : M () :=
  _ ← _try_command "Unable to stop: %s" (raw_command "set_mode" [PyInt 0]);
  mret ().

End Legacy.

(** ** [custom_components/vacuum-styj02ym/vacuum.py]: the mode-aware platform *)

Module ModeAware.

Definition STATE_CODE_TO_STATE : gmap Z RunState :=
  list_to_map
    [(0, STATE_IDLE); (1, STATE_IDLE); (2, STATE_PAUSED);
     (3, STATE_CLEANING); (4, STATE_RETURNING); (5, STATE_DOCKED);
     (6, STATE_CLEANING); (7, STATE_CLEANING)].

Definition state : M (option RunState) := state STATE_CODE_TO_STATE.

Definition async_start : M () :=
  mode ← vacuum_state_item "mode";
  is_mop ← vacuum_state_item "is_mop";
  let actionMode := 0 in
  me ← get_self;
  let '(method, param) :=
    match (if bool_decide (mode = 4) then _last_clean_point me else None) with
    | Some (px, py) => ("set_pointclean", [PyInt 1; PyInt px; PyInt py])
    | None =>
        let actionMode :=
          if bool_decide (mode = 2) then 2
          else if bool_decide (is_mop = 2) then 3
          else is_mop in
        if bool_decide (mode = 3) then ("set_mode", [PyInt 3; PyInt 1])
        else ("set_mode_withroom", [PyInt actionMode; PyInt 1; PyInt 0])
    end in
  _ ← _try_command "Unable to start the vacuum: %s" (raw_command method param);
  mret ().

Definition async_pause : M () :=
  mode ← vacuum_state_item "mode";
  is_mop ← vacuum_state_item "is_mop";
  let actionMode := 0 in
  me ← get_self;
  let '(method, param) :=
    match (if bool_decide (mode = 4) then _last_clean_point me else None) with
    | Some (px, py) => ("set_pointclean", [PyInt 3; PyInt px; PyInt py])
    | None =>
        let actionMode :=
          if bool_decide (mode = 2) then 2
          else if bool_decide (is_mop = 2) then 3
          else is_mop in
        if bool_decide (mode = 3) then ("set_mode", [PyInt 3; PyInt 3])
        else ("set_mode_withroom", [PyInt actionMode; PyInt 3; PyInt 0])
    end in
  _ ← _try_command "Unable to set pause: %s" (raw_command method param);
  mret ().

Definition async_stop : M () :=
  mode ← vacuum_state_item "mode";
  '(method, param) ←
    (if bool_decide (mode = 3) then
       mret ("set_mode", [PyInt 3; PyInt 0])
     else if bool_decide (mode = 4) then
       _ ← set_last_clean_point None;
       mret ("set_pointclean", [PyInt 0; PyInt 0; PyInt 0])
     else
       mret ("set_mode", [PyInt 0]));
  _ ← _try_command "Unable to stop: %s" (raw_command method param);
  mret ().

(** The two nested loops of [async_clean_zone]: the state carried through
    them is the pair of [result] and [i]. One round of the outer loop
    builds [res] from the [i] it starts with, then appends it [repeats]
    times, counting [i] up at each append. *)
Definition zone_round (repeats : Z) (st : list string * Z)
    (z : Z * Z * Z * Z) : list string * Z :=
  let '(x1, y2, x2, y1) := z in
  let res :=
    Py.join "_" (Py.str <$> [st.2; 0; x1; y1; x1; y2; x2; y2; x2; y1]) in
  foldl (λ (st : list string * Z) (_ : Z), (st.1 ++ [res], st.2 + 1))
        st (Py.range repeats).

Definition zone_loops (zone : list (Z * Z * Z * Z)) (repeats : Z)
    : list string * Z :=
  foldl (zone_round repeats) ([], 0) zone.

(** The list [result] that [async_clean_zone] passes to [set_zone]. *)
Definition clean_zone_result (zone : list (Z * Z * Z * Z)) (repeats : Z)
    : list pyval :=
  let '(result, i) := zone_loops zone repeats in
  PyInt i :: (PyStr <$> result).

(** [a and b] on awaited commands: [b] runs only when [a] gave [True]. *)
Definition and_then (a b : M bool) : M bool :=
  a ≫= λ ok : bool, if ok then b else mret false.

(** The value of the [and] chain of [async_clean_zone]. *)
Definition clean_zone_steps (zone : list (Z * Z * Z * Z)) (repeats : Z)
    : M bool :=
  let result := clean_zone_result zone repeats in
  and_then
    (_try_command "Unable to clean zone: %s"
       (raw_command "set_uploadmap" [PyInt 1]))
    (and_then
       (_try_command "Unable to clean zone: %s"
          (raw_command "set_zone" result))
       (_try_command "Unable to clean zone: %s"
          (raw_command "set_mode" [PyInt 3; PyInt 1]))).

Definition async_clean_zone (zone : list (Z * Z * Z * Z)) (repeats : Z)
    : M () :=
  _ ← clean_zone_steps zone repeats; mret ().

(** The value of the [and] chain of [async_clean_point], after the point
    is stored. *)
Definition clean_point_steps (point : Z * Z) : M bool :=
  let '(x, y) := point in
  _ ← set_last_clean_point (Some point);
  and_then
    (_try_command "Unable to clean point: %s"
       (raw_command "set_uploadmap" [PyInt 0]))
    (_try_command "Unable to clean point: %s"
       (raw_command "set_pointclean" [PyInt 1; PyInt x; PyInt y])).

Definition async_clean_point (point : Z * Z) : M () :=
  _ ← clean_point_steps point; mret ().

End ModeAware.

(** ** Vocabulary of the statements *)

(** Strings made of decimal digits only. *)
Fixpoint digits_only (s : string) : bool :=
  match s with
  | EmptyString => true
  | String c r => Py.is_digit c && digits_only r
  end.

(** Text of ASCII characters only, on which [Py.capitalize], [Py.lower] and
    [Py.int] are the methods of Python's [str] and its [int]. *)
Fixpoint ascii_text (s : string) : bool :=
  match s with
  | EmptyString => true
  | String c r => (nat_of_ascii c <? 128)%nat && ascii_text r
  end.

(** The shape of [str(n)]: an optional minus sign, then digits. *)
Definition numeral (s : string) : bool :=
  match s with
  | EmptyString => false
  | String c r => (Py.is_digit c || Ascii.eqb c "-") && digits_only r
  end.

(** The action selector as the design document words it: 2 while zone
    cleaning is in progress ([mode == 2]); otherwise 3 when [is_mop == 2],
    and [is_mop] itself in every other case. *)
Definition actionMode_documented (mode is_mop : Z) : Z :=
  if bool_decide (mode = 2) then 2
  else if bool_decide (is_mop = 2) then 3 else is_mop.

(** The ten fields of a zone entry as the design document lists them: the
    index, a fixed 0, then the corners [(x1,y1,x1,y2,x2,y2,x2,y1)] of the
    zone tuple [(x1, y2, x2, y1)]. *)
Definition zone_entry (index : Z) (z : Z * Z * Z * Z) : string :=
  let '(x1, y2, x2, y1) := z in
  Py.join "_" (Py.str <$> [index; 0; x1; y1; x1; y2; x2; y2; x2; y1]).

(** The entries the loops of [async_clean_zone] append from index [i] on:
    each zone contributes [reps] copies of the entry built at the index the
    zone starts with. *)
Fixpoint entries_from (i : Z) (reps : nat) (zone : list (Z * Z * Z * Z))
    : list string :=
  match zone with
  | [] => []
  | z :: rest =>
      replicate reps (zone_entry i z)
      ++ entries_from (i + Z.of_nat reps) reps rest
  end.

(** The entity after a successful poll that was answered with [values]. *)
Definition refreshed (values : list Z) (me : MiroboVacuum2) : MiroboVacuum2 :=
  {| _name := _name me; _vacuum := _vacuum me;
     _last_clean_point := _last_clean_point me;
     vacuum_state := Some (dict (zip ALL_PROPS values));
     _available := true |}.

(** The entity with its cached point dropped. *)
Definition without_point (me : MiroboVacuum2) : MiroboVacuum2 :=
  {| _name := _name me; _vacuum := _vacuum me; _last_clean_point := None;
     vacuum_state := vacuum_state me; _available := _available me |}.

(** A world around an entity that has sent and logged nothing yet. *)
Definition fresh (me : MiroboVacuum2) : World :=
  {| self := me; sent := []; logged := [] |}.

(** Devices and entities of the worked examples: a device that answers
    every command, one that rejects every command, one that cannot be
    reached; and an entity around a device with a given snapshot, cached
    point and availability. *)
Definition obedient : Vacuum := λ _ _, Reply [].
Definition rejecting : Vacuum := λ _ _, Fault (DeviceException "rejected").
Definition unreachable : Vacuum := λ _ _, Fault (OSError "timed out").

Definition entity (vacuum : Vacuum) (snapshot : option (gmap string Z))
    (point : option (Z * Z)) (avail : bool) : MiroboVacuum2 :=
  {| _name := "Xiaomi Vacuum cleaner STYJ02YM"; _vacuum := vacuum;
     _last_clean_point := point; vacuum_state := snapshot;
     _available := avail |}.

(** A snapshot as a poll builds it; [mode] and [is_mop] are the second and
    the thirteenth value. *)
Definition snapshot_with (run_state mode suction_grade is_mop : Z)
    : gmap string Z :=
  dict (zip ALL_PROPS
          [run_state; mode; 0; 80; 1; 0; 0; 0; suction_grade; 11; 1; 1;
           is_mop; 0]).

(** [m] leaves [view] of the world as it found it, however it ends. *)
Definition frames {A B} (view : World → B) (m : M A) : Prop :=
  ∀ w, view (m w).2 = view w.

(** What a poll establishes: the cached snapshot and the availability flag. *)
Definition poll_view (w : World) : option (gmap string Z) * bool :=
  (vacuum_state (self w), _available (self w)).

(** The entity and the commands handed to the device: all of the world but
    the log. *)
Definition entity_view (w : World) : MiroboVacuum2 * list command :=
  (self w, sent w).

(** The cached point. *)
Definition point_view (w : World) : option (Z * Z) :=
  _last_clean_point (self w).

(** The text a displayed fan speed is entered back with. *)
Definition shown_text (shown : pyval) : string :=
  match shown with
  | PyStr name => name
  | PyInt n => Py.str n
  | PyNone => EmptyString
  end.

(** The [get_prop] command of a poll. *)
Definition poll : command := ("get_prop", PyStr <$> ALL_PROPS).

(** * Properties *)

(** ** Facts about the built-ins *)

Example str_examples :
  Py.str 0 = "0" ∧ Py.str 100 = "100" ∧ Py.str (-12) = "-12".
Proof. repeat split; reflexivity. Qed.

Example capitalize_examples :
  Py.capitalize "tURBO" = "Turbo" ∧ Py.capitalize "silent" = "Silent"
  ∧ Py.capitalize "7" = "7" ∧ Py.capitalize "" = "".
Proof. repeat split; reflexivity. Qed.

Example int_examples :
  Py.int " 42 " = Some 42 ∧ Py.int "-7" = Some (-7) ∧ Py.int "+1_000" = Some 1000
  ∧ Py.int "007" = Some 7 ∧ Py.int "max" = None ∧ Py.int "" = None
  ∧ Py.int "1__0" = None ∧ Py.int "_1" = None ∧ Py.int "1_" = None
  ∧ Py.int "- 5" = None ∧ Py.int "2.5" = None ∧ Py.int "-" = None.
Proof. repeat split; reflexivity. Qed.

(** Tab and line feed are skipped; the file separator [\x1c] is not. *)
Example int_white_space :
  Py.int (String "009" (String "5" (String "010" EmptyString))) = Some 5
  ∧ Py.int (String "028" "5") = None
  ∧ Py.int (String "5" (String "031" EmptyString)) = None.
Proof. repeat split; reflexivity. Qed.

Example fan_speed_list_sorted :
  fan_speed_list = ["Silent"; "Standard"; "Medium"; "Turbo"].
Proof. reflexivity. Qed.

Lemma lower_char_upper_char c :
  Py.lower_char (Py.upper_char c) = Py.lower_char c.
Proof. destruct c as [[] [] [] [] [] [] [] []]; reflexivity. Qed.

Lemma lower_char_idem c : Py.lower_char (Py.lower_char c) = Py.lower_char c.
Proof. destruct c as [[] [] [] [] [] [] [] []]; reflexivity. Qed.

Lemma lower_idem s : Py.lower (Py.lower s) = Py.lower s.
Proof.
  induction s as [|c r IH]; simpl; [done|].
  by rewrite lower_char_idem, IH.
Qed.

Lemma lower_capitalize s : Py.lower (Py.capitalize s) = Py.lower s.
Proof.
  destruct s as [|c r]; simpl; [done|].
  by rewrite lower_char_upper_char, lower_idem.
Qed.

Lemma digit_not_space c : Py.is_digit c = true → Py.is_space c = false.
Proof. destruct c as [[] [] [] [] [] [] [] []]; simpl; done. Qed.

Lemma digit_not_sign c :
  Py.is_digit c = true → Ascii.eqb c "-" = false ∧ Ascii.eqb c "+" = false.
Proof. destruct c as [[] [] [] [] [] [] [] []]; simpl; done. Qed.

Lemma digit_case_fixed c :
  Py.is_digit c = true → Py.upper_char c = c ∧ Py.lower_char c = c.
Proof. destruct c as [[] [] [] [] [] [] [] []]; simpl; done. Qed.

Lemma string_of_uint_digits d : digits_only (NilEmpty.string_of_uint d) = true.
Proof. induction d; simpl; done. Qed.

Lemma string_of_uint_nonempty d :
  d ≠ Nil → NilEmpty.string_of_uint d ≠ EmptyString.
Proof. destruct d; simpl; done. Qed.

Lemma rstrip_digits s : digits_only s = true → Py.rstrip s = s.
Proof.
  induction s as [|c r IH]; simpl; [done|].
  intros [Hc Hr]%andb_prop. rewrite (IH Hr), (digit_not_space c Hc).
  by destruct r.
Qed.

Lemma lower_digits s : digits_only s = true → Py.lower s = s.
Proof.
  induction s as [|c r IH]; simpl; [done|].
  intros [Hc Hr]%andb_prop.
  by rewrite (IH Hr), (proj2 (digit_case_fixed c Hc)).
Qed.

Lemma ungroup_digits s prev :
  digits_only s = true → prev = true ∨ s ≠ EmptyString →
  Py.ungroup prev s = Some s.
Proof.
  revert prev. induction s as [|c r IH]; simpl; intros prev Hs Hne.
  - destruct Hne as [->|?]; done.
  - apply andb_prop in Hs as [Hc Hr]. rewrite Hc, (IH true Hr); [done|by left].
Qed.

Lemma digits_value_to_uint p :
  Py.digits_value (NilEmpty.string_of_uint (Pos.to_uint p)) = Some (Z.pos p).
Proof.
  unfold Py.digits_value.
  rewrite ungroup_digits.
  - simpl. rewrite NilEmpty.usu. simpl. unfold Z.of_uint.
    by rewrite DecimalPos.Unsigned.of_to.
  - apply string_of_uint_digits.
  - right. apply string_of_uint_nonempty, DecimalPos.Unsigned.to_uint_nonnil.
Qed.

Lemma str_pos p :
  Py.str (Z.pos p) = NilEmpty.string_of_uint (Pos.to_uint p).
Proof.
  unfold Py.str. simpl. unfold NilZero.string_of_uint.
  pose proof (DecimalPos.Unsigned.to_uint_nonnil p).
  by destruct (Pos.to_uint p).
Qed.

Lemma str_neg p :
  Py.str (Z.neg p) = String "-" (NilEmpty.string_of_uint (Pos.to_uint p)).
Proof.
  unfold Py.str. simpl. f_equal. unfold NilZero.string_of_uint.
  pose proof (DecimalPos.Unsigned.to_uint_nonnil p).
  by destruct (Pos.to_uint p).
Qed.

(** [str(n)] is a numeral. *)
Lemma numeral_str n : numeral (Py.str n) = true.
Proof.
  destruct n as [|p|p]; [done| |].
  - rewrite str_pos.
    pose proof (string_of_uint_digits (Pos.to_uint p)) as Hd.
    pose proof (string_of_uint_nonempty _
                  (DecimalPos.Unsigned.to_uint_nonnil p)) as Hne.
    destruct (NilEmpty.string_of_uint (Pos.to_uint p)) as [|c r]; [done|].
    simpl in *. apply andb_prop in Hd as [-> ->]. done.
  - rewrite str_neg. simpl. apply string_of_uint_digits.
Qed.

(** [int(str(n)) == n]. *)
Lemma int_str n : Py.int (Py.str n) = Some n.
Proof.
  destruct n as [|p|p]; [done| |].
  - rewrite str_pos.
    pose proof (digits_value_to_uint p) as Hv.
    pose proof (string_of_uint_digits (Pos.to_uint p)) as Hd.
    pose proof (string_of_uint_nonempty _
                  (DecimalPos.Unsigned.to_uint_nonnil p)) as Hne.
    destruct (NilEmpty.string_of_uint (Pos.to_uint p)) as [|c r] eqn:E; [done|].
    unfold Py.int, Py.strip.
    assert (Hc : Py.is_digit c = true) by (simpl in Hd; by apply andb_prop in Hd as [? ?]).
    simpl Py.lstrip. rewrite (digit_not_space c Hc), (rstrip_digits _ Hd).
    destruct (digit_not_sign c Hc) as [-> ->]. done.
  - rewrite str_neg.
    pose proof (digits_value_to_uint p) as Hv.
    pose proof (string_of_uint_digits (Pos.to_uint p)) as Hd.
    unfold Py.int, Py.strip. simpl Py.lstrip. simpl Py.rstrip.
    rewrite (rstrip_digits _ Hd).
    pose proof (string_of_uint_nonempty _
                  (DecimalPos.Unsigned.to_uint_nonnil p)) as Hne.
    destruct (NilEmpty.string_of_uint (Pos.to_uint p)) as [|c r] eqn:E; [done|].
    simpl Ascii.eqb. cbv iota. rewrite Hv. done.
Qed.

(** A numeral is its own capitalisation, and no fan-speed name is one. *)
Lemma capitalize_numeral s : numeral s = true → Py.capitalize s = s.
Proof.
  destruct s as [|c r]; simpl; [done|].
  intros [Hc Hr]%andb_prop. rewrite (lower_digits _ Hr). f_equal.
  apply orb_prop in Hc as [Hc|Hc].
  - apply digit_case_fixed, Hc.
  - apply Ascii.eqb_eq in Hc as ->. done.
Qed.

Lemma numeral_not_a_level s : numeral s = true → items_get s FAN_SPEEDS = None.
Proof.
  intros Hs. unfold FAN_SPEEDS. simpl.
  repeat (case_decide; [subst s; discriminate Hs|]). done.
Qed.

(** ** Proof steps that recur *)

(** Membership in a list literal, and its refutation from a hypothesis. *)
Ltac in_literal :=
  repeat first [apply list_elem_of_here | apply list_elem_of_further].

Ltac not_in_literal H :=
  repeat (apply elem_of_cons in H as [?|H]; [done|]);
  by apply elem_of_nil in H.

(** ** How the shared methods run *)

Lemma vacuum_state_item_run w snapshot key v :
  vacuum_state (self w) = Some snapshot → snapshot !! key = Some v →
  vacuum_state_item key w = (Return v, w).
Proof.
  intros Hs Hk. unfold vacuum_state_item, get_self, mbind, M_bind.
  by rewrite Hs, Hk.
Qed.

(** Opens the leading bind of a method body; runs the leading
    [self.vacuum_state[key]] of a method body. *)
Ltac bind_step := unfold mbind at 1, M_bind at 1.

Ltac read_item Hs Hk :=
  bind_step; rewrite (vacuum_state_item_run _ _ _ _ Hs Hk).

(** One guarded raw call: the command always reaches the device; a reply is
    [True], a [DeviceException] is logged under the caller's message and
    becomes [False], any other exception leaves [_try_command]. *)
Lemma try_command_run mask method params w :
  _try_command mask (raw_command method params) w =
    match _vacuum (self w) (sent w) (method, params) with
    | Reply _ => (Return true, record_sent (method, params) w)
    | Fault e =>
        if is_DeviceException e
        then (Return false,
              record_log (LogRecord ERROR mask [ArgExc e])
                (record_sent (method, params) w))
        else (Raise e, record_sent (method, params) w)
    end.
Proof.
  unfold _try_command, try_except, raw_command, mbind, M_bind.
  destruct (_vacuum (self w) (sent w) (method, params)) as [vs|e]; [done|].
  simpl. by destruct (is_DeviceException e).
Qed.

Lemma try_command_sent mask method params w :
  sent (_try_command mask (raw_command method params) w).2
  = sent w ++ [(method, params)].
Proof.
  rewrite try_command_run.
  destruct (_vacuum _ _ _) as [?|e]; [done|]. by destruct (is_DeviceException e).
Qed.

Lemma try_command_self mask method params w :
  self (_try_command mask (raw_command method params) w).2 = self w.
Proof.
  rewrite try_command_run.
  destruct (_vacuum _ _ _) as [?|e]; [done|]. by destruct (is_DeviceException e).
Qed.

(** Running [m] and dropping its value changes the world as [m] does. *)
Lemma discard_world {A} (m : M A) w : ((_ ← m; mret ()) w).2 = (m w).2.
Proof. unfold mbind, M_bind. by destruct (m w) as [[?|?] ?]. Qed.

(** ** The mode-aware platform *)

Section ModeAwareRuns.

Import ModeAware.

Variables (w : World) (snapshot : gmap string Z) (mode is_mop : Z).
Hypothesis Hsnapshot : vacuum_state (self w) = Some snapshot.
Hypothesis Hmode : snapshot !! "mode" = Some mode.
Hypothesis His_mop : snapshot !! "is_mop" = Some is_mop.

Lemma async_start_point px py :
  mode = 4 → _last_clean_point (self w) = Some (px, py) →
  (async_start w).2
  = (_try_command "Unable to start the vacuum: %s"
       (raw_command "set_pointclean" [PyInt 1; PyInt px; PyInt py]) w).2.
Proof.
  intros -> Hp. unfold async_start.
  read_item Hsnapshot Hmode.
  read_item Hsnapshot His_mop.
  bind_step; unfold get_self. rewrite Hp. simpl.
  apply discard_world.
Qed.

Lemma async_pause_point px py :
  mode = 4 → _last_clean_point (self w) = Some (px, py) →
  (async_pause w).2
  = (_try_command "Unable to set pause: %s"
       (raw_command "set_pointclean" [PyInt 3; PyInt px; PyInt py]) w).2.
Proof.
  intros -> Hp. unfold async_pause.
  read_item Hsnapshot Hmode.
  read_item Hsnapshot His_mop.
  bind_step; unfold get_self. rewrite Hp. simpl.
  apply discard_world.
Qed.

(** Outside the point path and outside edge mode, [async_start] sends
    [set_mode_withroom] with the action selector computed in its body. *)
Lemma async_start_room :
  (mode = 4 → _last_clean_point (self w) = None) → mode ≠ 3 →
  (async_start w).2
  = (_try_command "Unable to start the vacuum: %s"
       (raw_command "set_mode_withroom"
          [PyInt (actionMode_documented mode is_mop); PyInt 1; PyInt 0]) w).2.
Proof.
  intros Hp H3. unfold async_start.
  read_item Hsnapshot Hmode.
  read_item Hsnapshot His_mop.
  bind_step; unfold get_self.
  assert ((if bool_decide (mode = 4) then _last_clean_point (self w) else None)
          = None) as ->.
  { case_bool_decide; [by apply Hp|done]. }
  rewrite (bool_decide_eq_false_2 _ H3).
  apply discard_world.
Qed.

Lemma async_pause_room :
  (mode = 4 → _last_clean_point (self w) = None) → mode ≠ 3 →
  (async_pause w).2
  = (_try_command "Unable to set pause: %s"
       (raw_command "set_mode_withroom"
          [PyInt (actionMode_documented mode is_mop); PyInt 3; PyInt 0]) w).2.
Proof.
  intros Hp H3. unfold async_pause.
  read_item Hsnapshot Hmode.
  read_item Hsnapshot His_mop.
  bind_step; unfold get_self.
  assert ((if bool_decide (mode = 4) then _last_clean_point (self w) else None)
          = None) as ->.
  { case_bool_decide; [by apply Hp|done]. }
  rewrite (bool_decide_eq_false_2 _ H3).
  apply discard_world.
Qed.

(** In point mode [async_stop] first drops the cached point, then makes its
    guarded call in the world where the point is already gone. *)
Lemma async_stop_point :
  mode = 4 →
  (async_stop w).2
  = (_try_command "Unable to stop: %s"
       (raw_command "set_pointclean" [PyInt 0; PyInt 0; PyInt 0])
       (with_self (without_point (self w)) w)).2.
Proof.
  intros ->. unfold async_stop.
  read_item Hsnapshot Hmode.
  simpl bool_decide. cbv iota.
  bind_step.
  unfold mbind at 2, M_bind at 2. unfold set_last_clean_point at 1.
  cbv beta iota. unfold mret at 2, M_ret at 2. cbv beta iota.
  apply discard_world.
Qed.

End ModeAwareRuns.

(** ** Point mode: start, pause, stop *)

(** C2. In the mode-aware platform, with [mode == 4] and a cached point
    [(px, py)], start sends exactly [set_pointclean [1, px, py]] and pause
    exactly [set_pointclean [3, px, py]]; stop sends exactly
    [set_pointclean [0, 0, 0]] and drops the cached point, so that a start
    that follows, the mode still being 4, does not take the point path: it
    sends [set_mode_withroom] of the room branch. *)
Theorem point_mode_commands (w : World) (snapshot : gmap string Z)
    (is_mop px py : Z) :
  vacuum_state (self w) = Some snapshot →
  snapshot !! "mode" = Some 4 →
  snapshot !! "is_mop" = Some is_mop →
  _last_clean_point (self w) = Some (px, py) →
  sent (ModeAware.async_start w).2
    = sent w ++ [("set_pointclean", [PyInt 1; PyInt px; PyInt py])]
  ∧ sent (ModeAware.async_pause w).2
    = sent w ++ [("set_pointclean", [PyInt 3; PyInt px; PyInt py])]
  ∧ let stopped := (ModeAware.async_stop w).2 in
    sent stopped = sent w ++ [("set_pointclean", [PyInt 0; PyInt 0; PyInt 0])]
    ∧ _last_clean_point (self stopped) = None
    ∧ vacuum_state (self stopped) = Some snapshot
    ∧ sent (ModeAware.async_start stopped).2
      = sent stopped
        ++ [("set_mode_withroom",
             [PyInt (if bool_decide (is_mop = 2) then 3 else is_mop);
              PyInt 1; PyInt 0])].
Proof.
  intros Hs Hm Hi Hp.
  split; [|split].
  - rewrite (async_start_point w snapshot 4 is_mop Hs Hm Hi px py eq_refl Hp).
    apply try_command_sent.
  - rewrite (async_pause_point w snapshot 4 is_mop Hs Hm Hi px py eq_refl Hp).
    apply try_command_sent.
  - cbv zeta.
    pose proof (async_stop_point w snapshot 4 Hs Hm eq_refl) as Hstop.
    assert (Hself : self (ModeAware.async_stop w).2 = without_point (self w)).
    { rewrite Hstop. apply try_command_self. }
    assert (Hsent : sent (ModeAware.async_stop w).2
                    = sent w ++ [("set_pointclean", [PyInt 0; PyInt 0; PyInt 0])]).
    { rewrite Hstop, try_command_sent. done. }
    split; [exact Hsent|].
    split; [by rewrite Hself|].
    split; [by rewrite Hself|].
    rewrite (async_start_room (ModeAware.async_stop w).2 snapshot 4 is_mop).
    + rewrite try_command_sent. done.
    + by rewrite Hself.
    + done.
    + done.
    + intros _. by rewrite Hself.
    + done.
Qed.

Lemma point_mode_commands_witness :
  let w := fresh (entity obedient (Some (snapshot_with 3 4 1 0))
                    (Some (150, 200)) true) in
  sent (ModeAware.async_start w).2
    = [("set_pointclean", [PyInt 1; PyInt 150; PyInt 200])]
  ∧ sent (ModeAware.async_pause w).2
    = [("set_pointclean", [PyInt 3; PyInt 150; PyInt 200])]
  ∧ sent (ModeAware.async_stop w).2
    = [("set_pointclean", [PyInt 0; PyInt 0; PyInt 0])]
  ∧ _last_clean_point (self (ModeAware.async_stop w).2) = None
  ∧ sent (ModeAware.async_start (ModeAware.async_stop w).2).2
    = [("set_pointclean", [PyInt 0; PyInt 0; PyInt 0]);
       ("set_mode_withroom", [PyInt 0; PyInt 1; PyInt 0])].
Proof.
  intros w.
  destruct (point_mode_commands w (snapshot_with 3 4 1 0) 0 150 200)
    as (Hstart & Hpause & Hstop & Hpoint & _ & Hagain);
    [reflexivity | reflexivity | reflexivity | reflexivity |].
  cbv zeta in Hagain. rewrite Hstop in Hagain.
  repeat split; assumption.
Defined.

(** ** The action selector of the room branch *)

(** C5. Where start and pause do not take the point path and the mode is not
    3, they send [set_mode_withroom [actionMode, action, 0]] with
    [actionMode = 2] if [mode == 2], else 3 if [is_mop == 2], else [is_mop];
    so with [mode = 0] and [is_mop = 2] start sends exactly
    [set_mode_withroom [3, 1, 0]]. *)
Theorem room_branch_action_mode (w : World) (snapshot : gmap string Z)
    (mode is_mop : Z) :
  vacuum_state (self w) = Some snapshot →
  snapshot !! "mode" = Some mode →
  snapshot !! "is_mop" = Some is_mop →
  (mode = 4 → _last_clean_point (self w) = None) →
  mode ≠ 3 →
  sent (ModeAware.async_start w).2
    = sent w ++ [("set_mode_withroom",
                  [PyInt (actionMode_documented mode is_mop); PyInt 1; PyInt 0])]
  ∧ sent (ModeAware.async_pause w).2
    = sent w ++ [("set_mode_withroom",
                  [PyInt (actionMode_documented mode is_mop); PyInt 3; PyInt 0])]
  ∧ (mode = 0 → is_mop = 2 →
     sent (ModeAware.async_start w).2
     = sent w ++ [("set_mode_withroom", [PyInt 3; PyInt 1; PyInt 0])]).
Proof.
  intros Hs Hm Hi Hp H3.
  assert (Hstart : sent (ModeAware.async_start w).2
    = sent w ++ [("set_mode_withroom",
                  [PyInt (actionMode_documented mode is_mop); PyInt 1; PyInt 0])]).
  { rewrite (async_start_room w snapshot mode is_mop Hs Hm Hi Hp H3).
    apply try_command_sent. }
  split; [exact Hstart|]. split.
  - rewrite (async_pause_room w snapshot mode is_mop Hs Hm Hi Hp H3).
    apply try_command_sent.
  - intros -> ->. exact Hstart.
Qed.

Lemma room_branch_action_mode_witness :
  let w := fresh (entity obedient (Some (snapshot_with 1 0 1 2)) None true) in
  sent (ModeAware.async_start w).2
    = [("set_mode_withroom", [PyInt 3; PyInt 1; PyInt 0])].
Proof.
  intros w.
  destruct (room_branch_action_mode w (snapshot_with 1 0 1 2) 0 2)
    as (_ & _ & Hex);
    [reflexivity | reflexivity | reflexivity | done | done |].
  exact (Hex eq_refl eq_refl).
Defined.

(** ** Cleaning a point *)

(** How the [and] chain of [async_clean_point] runs, by the outcome of its
    first call. *)
Lemma clean_point_steps_run (w : World) (x y : Z) :
  let first := ("set_uploadmap", [PyInt 0]) in
  let w1 := with_self {| _name := _name (self w); _vacuum := _vacuum (self w);
                         _last_clean_point := Some (x, y);
                         vacuum_state := vacuum_state (self w);
                         _available := _available (self w) |} w in
  ModeAware.clean_point_steps (x, y) w =
    match _vacuum (self w) (sent w) first with
    | Reply _ =>
        _try_command "Unable to clean point: %s"
          (raw_command "set_pointclean" [PyInt 1; PyInt x; PyInt y])
          (record_sent first w1)
    | Fault e =>
        if is_DeviceException e
        then (Return false,
              record_log (LogRecord ERROR "Unable to clean point: %s" [ArgExc e])
                (record_sent first w1))
        else (Raise e, record_sent first w1)
    end.
Proof.
  cbv zeta. unfold ModeAware.clean_point_steps, ModeAware.and_then.
  bind_step. unfold set_last_clean_point at 1.
  cbv beta iota.
  bind_step. rewrite try_command_run. simpl.
  destruct (_vacuum (self w) (sent w) ("set_uploadmap", [PyInt 0])) as [?|e];
    [done|].
  by destruct (is_DeviceException e).
Qed.

(** C6, as the code has it. [async_clean_point(point)] stores [point] as the
    cached point, then sends [set_uploadmap [0]], and sends
    [set_pointclean [1, x, y]] only when the first call was answered. When a
    call is rejected with a [DeviceException], no further call is made, the
    error is logged under the operation's message and the [and] chain has
    the value [False]; the method itself returns [None], as it does when
    both calls are answered, so its caller is told of no failure. An
    exception other than [DeviceException] leaves the method. In every case
    the cached point is the attempted point. *)
Theorem clean_point_outcome (w : World) (x y : Z) :
  let first := ("set_uploadmap", [PyInt 0]) in
  let second := ("set_pointclean", [PyInt 1; PyInt x; PyInt y]) in
  let device := _vacuum (self w) in
  let steps := (ModeAware.clean_point_steps (x, y) w).1 in
  let returned := (ModeAware.async_clean_point (x, y) w).1 in
  let after := (ModeAware.async_clean_point (x, y) w).2 in
  let rejected (e : exn) : Prop :=
    if is_DeviceException e
    then steps = Return false
         ∧ returned = Return ()
         ∧ logged after
           = logged w ++ [LogRecord ERROR "Unable to clean point: %s" [ArgExc e]]
    else returned = Raise e in
  _last_clean_point (self after) = Some (x, y)
  ∧ match device (sent w) first with
    | Fault e => sent after = sent w ++ [first] ∧ rejected e
    | Reply _ =>
        sent after = sent w ++ [first; second]
        ∧ match device (sent w ++ [first]) second with
          | Fault e => rejected e
          | Reply _ =>
              steps = Return true ∧ returned = Return ()
              ∧ logged after = logged w
          end
    end.
Proof.
  cbv zeta. unfold ModeAware.async_clean_point.
  rewrite discard_world. unfold mbind, M_bind.
  rewrite clean_point_steps_run. cbv zeta.
  destruct (_vacuum (self w) (sent w) ("set_uploadmap", [PyInt 0])) as [vs|e].
  - rewrite try_command_run. simpl. unfold command.
    repeat match goal with
      | |- context [match _vacuum ?s ?h ?c with _ => _ end] =>
          destruct (_vacuum s h c) as [?|?]
      | |- context [if is_DeviceException ?e then _ else _] =>
          destruct (is_DeviceException e)
      end.
    all: simpl; rewrite <- ?app_assoc; repeat apply conj; done.
  - destruct (is_DeviceException e); simpl; done.
Qed.

(** The design document's "the operation reports overall failure" fails:
    with a device that rejects [set_uploadmap], the method returns [None],
    the very value it returns with a device that answers both commands. *)
Lemma clean_point_failure_not_returned :
  let failing := fresh (entity rejecting (Some (snapshot_with 1 0 1 0)) None true) in
  let working := fresh (entity obedient (Some (snapshot_with 1 0 1 0)) None true) in
  _vacuum (self failing) (sent failing) ("set_uploadmap", [PyInt 0])
    = Fault (DeviceException "rejected")
  ∧ sent (ModeAware.async_clean_point (150, 200) failing).2
    = [("set_uploadmap", [PyInt 0])]
  ∧ (ModeAware.async_clean_point (150, 200) failing).1 = Return ()
  ∧ (ModeAware.async_clean_point (150, 200) working).1 = Return ()
  ∧ (ModeAware.async_clean_point (150, 200) failing).1
    = (ModeAware.async_clean_point (150, 200) working).1.
Proof. repeat split; reflexivity. Qed.

Example clean_point_rejected :
  let w := fresh (entity rejecting (Some (snapshot_with 1 0 1 0)) None true) in
  let after := (ModeAware.async_clean_point (150, 200) w).2 in
  sent after = [("set_uploadmap", [PyInt 0])]
  ∧ _last_clean_point (self after) = Some (150, 200)
  ∧ (ModeAware.clean_point_steps (150, 200) w).1 = Return false.
Proof. repeat split; reflexivity. Qed.

Example clean_point_accepted :
  let w := fresh (entity obedient (Some (snapshot_with 1 0 1 0)) None true) in
  sent (ModeAware.async_clean_point (150, 200) w).2
  = [("set_uploadmap", [PyInt 0]);
     ("set_pointclean", [PyInt 1; PyInt 150; PyInt 200])].
Proof. reflexivity. Qed.

(** ** Stop in point mode *)

(** C10. When stop runs with [mode == 4], the cached point is set to [None]
    before [set_pointclean [0, 0, 0]] is attempted: the guarded call runs in
    the world where the point is already gone, so the point is cleared
    whatever the device does with the command, also when the command
    fails. *)
Theorem stop_clears_point_first (w : World) (snapshot : gmap string Z) :
  vacuum_state (self w) = Some snapshot →
  snapshot !! "mode" = Some 4 →
  let stop := ("set_pointclean", [PyInt 0; PyInt 0; PyInt 0]) in
  let after := (ModeAware.async_stop w).2 in
  after = (_try_command "Unable to stop: %s" (raw_command stop.1 stop.2)
             (with_self (without_point (self w)) w)).2
  ∧ sent after = sent w ++ [stop]
  ∧ _last_clean_point (self after) = None
  ∧ (∀ e, _vacuum (self w) (sent w) stop = Fault e →
          _last_clean_point (self after) = None).
Proof.
  intros Hs Hm. cbv zeta.
  pose proof (async_stop_point w snapshot 4 Hs Hm eq_refl) as Hstop.
  assert (Hnone : _last_clean_point (self (ModeAware.async_stop w).2) = None).
  { rewrite Hstop, try_command_self. done. }
  split; [exact Hstop|]. split; [|split].
  - rewrite Hstop, try_command_sent. done.
  - exact Hnone.
  - intros e _. exact Hnone.
Qed.

Lemma stop_clears_point_first_witness :
  let w := fresh (entity rejecting (Some (snapshot_with 3 4 1 0))
                    (Some (150, 200)) true) in
  _vacuum (self w) (sent w) ("set_pointclean", [PyInt 0; PyInt 0; PyInt 0])
    = Fault (DeviceException "rejected")
  ∧ sent (ModeAware.async_stop w).2
    = [("set_pointclean", [PyInt 0; PyInt 0; PyInt 0])]
  ∧ _last_clean_point (self (ModeAware.async_stop w).2) = None.
Proof.
  intros w.
  destruct (stop_clears_point_first w (snapshot_with 3 4 1 0))
    as (_ & Hsent & Hnone & _); [reflexivity | reflexivity |].
  split; [reflexivity|]. split; assumption.
Defined.

(** ** Polling *)

Lemma ALL_PROPS_NoDup : NoDup ALL_PROPS.
Proof. apply (bool_decide_unpack _). by vm_compute. Qed.

(** [dict(zip(keys, values))] is positional when no key repeats. *)
Lemma dict_zip_lookup (keys : list string) (values : list Z) i key v :
  NoDup keys → keys !! i = Some key → values !! i = Some v →
  dict (zip keys values) !! key = Some v.
Proof.
  intros Hnd Hk Hv. unfold dict.
  assert (Hat : ∀ j y, zip keys values !! j = Some (key, y) → y = v).
  { intros j y [k' [y' (Heq & Hk' & Hy')]]%lookup_zip_with_Some.
    simplify_eq. assert (j = i) as -> by (eapply NoDup_lookup; eauto).
    congruence. }
  apply elem_of_list_to_map_1'.
  - intros y Hy. rewrite elem_of_reverse in Hy.
    apply list_elem_of_lookup_1 in Hy as [j Hj].
    symmetry. by apply (Hat j).
  - rewrite elem_of_reverse. apply (list_elem_of_lookup_2 _ i).
    apply lookup_zip_with_Some. eauto.
Qed.

(** C3, as the code has it. [update] sends one [get_prop] for [ALL_PROPS].
    When the call raises [OSError] or [DeviceException], the cached snapshot
    and the availability flag are both left as they were, one record is
    logged and no exception reaches the caller. When the call is answered,
    the snapshot is replaced wholesale by the positional zip of [ALL_PROPS]
    with the answer and the availability flag is set. *)
Theorem update_outcome (w : World) :
  let poll := ("get_prop", PyStr <$> ALL_PROPS) in
  let after := (update w).2 in
  sent after = sent w ++ [poll]
  ∧ match _vacuum (self w) (sent w) poll with
    | Reply values =>
        (update w).1 = Return ()
        ∧ self after = refreshed values (self w)
        ∧ _available (self after) = true
        ∧ logged after = logged w
        ∧ ∀ i key v, ALL_PROPS !! i = Some key → values !! i = Some v →
            dict (zip ALL_PROPS values) !! key = Some v
    | Fault (OSError reason) =>
        (update w).1 = Return ()
        ∧ vacuum_state (self after) = vacuum_state (self w)
        ∧ _available (self after) = _available (self w)
        ∧ logged after
          = logged w ++ [LogRecord ERROR "Got OSError while fetching the state: %s"
                           [ArgExc (OSError reason)]]
    | Fault (DeviceException reason) =>
        (update w).1 = Return ()
        ∧ vacuum_state (self after) = vacuum_state (self w)
        ∧ _available (self after) = _available (self w)
        ∧ logged after
          = logged w ++ [LogRecord WARNING
                           "Got exception while fetching the state: %s"
                           [ArgExc (DeviceException reason)]]
    | Fault e => (update w).1 = Raise e
    end.
Proof.
  cbv zeta. unfold update, try_except, raw_command, mbind, M_bind.
  destruct (_vacuum (self w) (sent w) ("get_prop", PyStr <$> ALL_PROPS))
    as [values|e].
  - simpl. repeat split; try done.
    intros i key v. apply dict_zip_lookup, ALL_PROPS_NoDup.
  - destruct e; simpl; done.
Qed.

(** The design document's "marks availability false" fails: after a successful
    poll the flag is true, and a poll that fails afterwards, by either
    fault, leaves it true. *)
Lemma update_failure_keeps_available :
  let snapshot := snapshot_with 5 0 1 0 in
  let w1 := fresh (entity rejecting (Some snapshot) None true) in
  let w2 := fresh (entity unreachable (Some snapshot) None true) in
  (update w1).1 = Return ()
  ∧ vacuum_state (self (update w1).2) = Some snapshot
  ∧ _available (self (update w1).2) = true
  ∧ _available (self (update w1).2) ≠ false
  ∧ _available (self (update w2).2) = true
  ∧ _available (self (update w2).2) ≠ false.
Proof. repeat split; done. Qed.

Example update_answered :
  let w := fresh (__init__ "v" (λ _ _, Reply [5; 0; 0; 97; 1; 0; 0; 0; 2; 11; 1; 1; 0; 0])) in
  ∃ snapshot,
    vacuum_state (self (update w).2) = Some snapshot
    ∧ snapshot !! "run_state" = Some 5
    ∧ snapshot !! "battary_life" = Some 97
    ∧ snapshot !! "suction_grade" = Some 2
    ∧ _available (self (update w).2) = true.
Proof. eexists. repeat split; reflexivity. Qed.

(** ** Decoding the run state *)

Lemma state_run (T : gmap Z RunState) (w : World) (snapshot : gmap string Z)
    (code : Z) :
  vacuum_state (self w) = Some snapshot →
  snapshot !! "run_state" = Some code →
  state T w =
    match T !! code with
    | Some st => (Return (Some st), w)
    | None =>
        (Return None,
         record_log (LogRecord ERROR "STATE not supported, state_code: %s"
                       [ArgInt code]) w)
    end.
Proof.
  intros Hs Hc. unfold state, get_self.
  bind_step. rewrite Hs.
  unfold try_except, state_lookup.
  bind_step. read_item Hs Hc.
  destruct (T !! code) as [st|]; [done|].
  simpl. read_item Hs Hc. done.
Qed.

(** C4. For a snapshot whose [run_state] is a key of the table of the
    platform file, [state] returns exactly the mapped state and logs
    nothing; for any other [run_state] it logs the offending code as an
    error and returns [None], the unknown state; it raises in neither case.
    This holds for the table of each of the two platform files. *)
Theorem state_decode (w : World) (snapshot : gmap string Z) (code : Z) :
  vacuum_state (self w) = Some snapshot →
  snapshot !! "run_state" = Some code →
  ModeAware.state w =
    match ModeAware.STATE_CODE_TO_STATE !! code with
    | Some st => (Return (Some st), w)
    | None =>
        (Return None,
         record_log (LogRecord ERROR "STATE not supported, state_code: %s"
                       [ArgInt code]) w)
    end
  ∧ Legacy.state w =
    match Legacy.STATE_CODE_TO_STATE !! code with
    | Some st => (Return (Some st), w)
    | None =>
        (Return None,
         record_log (LogRecord ERROR "STATE not supported, state_code: %s"
                       [ArgInt code]) w)
    end.
Proof.
  intros Hs Hc. split; by apply state_run with snapshot.
Qed.

Lemma state_decode_witness :
  let known := fresh (entity obedient (Some (snapshot_with 2 0 1 0)) None true) in
  let unknown := fresh (entity obedient (Some (snapshot_with 9 0 1 0)) None true) in
  ModeAware.state known = (Return (Some STATE_PAUSED), known)
  ∧ Legacy.state known = (Return (Some STATE_IDLE), known)
  ∧ (ModeAware.state unknown).1 = Return None
  ∧ logged (ModeAware.state unknown).2
    = [LogRecord ERROR "STATE not supported, state_code: %s" [ArgInt 9]]
  ∧ (Legacy.state unknown).1 = Return None.
Proof.
  intros known unknown.
  destruct (state_decode known (snapshot_with 2 0 1 0) 2) as [Hm Hl];
    [reflexivity | reflexivity |].
  destruct (state_decode unknown (snapshot_with 9 0 1 0) 9) as [Hm' Hl'];
    [reflexivity | reflexivity |].
  split; [exact Hm|]. split; [exact Hl|].
  rewrite Hm', Hl'. repeat split; reflexivity.
Defined.

(** The two tables, entry by entry. *)
Example STATE_CODE_TO_STATE_entries :
  (λ c, ModeAware.STATE_CODE_TO_STATE !! c) <$> [0; 1; 2; 3; 4; 5; 6; 7; 8; -1]
  = [Some STATE_IDLE; Some STATE_IDLE; Some STATE_PAUSED; Some STATE_CLEANING;
     Some STATE_RETURNING; Some STATE_DOCKED; Some STATE_CLEANING;
     Some STATE_CLEANING; None; None]
  ∧ (λ c, Legacy.STATE_CODE_TO_STATE !! c) <$> [0; 1; 2; 3; 4; 5; 6]
  = [None; Some STATE_IDLE; Some STATE_IDLE; Some STATE_CLEANING;
     Some STATE_RETURNING; Some STATE_DOCKED; None].
Proof. split; reflexivity. Qed.

(** ** Faults at a single raw call *)

(** What [_try_command] does with a fault of the device, by its kind: a
    [DeviceException] becomes [False] with the error logged under the
    operation's message; an [OSError] is not caught. *)
Lemma try_command_DeviceException mask method params w reason :
  _vacuum (self w) (sent w) (method, params) = Fault (DeviceException reason) →
  _try_command mask (raw_command method params) w
  = (Return false,
     record_log (LogRecord ERROR mask [ArgExc (DeviceException reason)])
       (record_sent (method, params) w)).
Proof. intros H. by rewrite try_command_run, H. Qed.

Lemma try_command_OSError mask method params w reason :
  _vacuum (self w) (sent w) (method, params) = Fault (OSError reason) →
  _try_command mask (raw_command method params) w
  = (Raise (OSError reason), record_sent (method, params) w).
Proof. intros H. by rewrite try_command_run, H. Qed.

(** C7, where the code departs from it. With a device that cannot be
    reached, so that [raw_command] raises [OSError] (the fault [update]
    catches in its first clause), the guarded call of an operation does not
    turn the fault into [False]: the [OSError] leaves [_try_command] and the
    operation, and nothing is logged. Shown for return-to-base, for locate
    and for start and stop of both platform files. *)
Theorem try_command_lets_OSError_through :
  let w := fresh (entity unreachable (Some (snapshot_with 3 0 1 0)) None true) in
  _try_command "Unable to return home: %s" (raw_command "set_charge" [PyInt 1]) w
    = (Raise (OSError "timed out"), record_sent ("set_charge", [PyInt 1]) w)
  ∧ (async_return_to_base w).1 = Raise (OSError "timed out")
  ∧ logged (async_return_to_base w).2 = []
  ∧ (async_locate w).1 = Raise (OSError "timed out")
  ∧ (Legacy.async_start w).1 = Raise (OSError "timed out")
  ∧ (Legacy.async_stop w).1 = Raise (OSError "timed out")
  ∧ (ModeAware.async_start w).1 = Raise (OSError "timed out")
  ∧ (ModeAware.async_stop w).1 = Raise (OSError "timed out")
  ∧ (update w).1 = Return ().
Proof. repeat split; reflexivity. Qed.

(** The other fault kind is turned into [False] and logged. *)
Example try_command_turns_DeviceException_into_False :
  let w := fresh (entity rejecting (Some (snapshot_with 3 0 1 0)) None true) in
  _try_command "Unable to return home: %s" (raw_command "set_charge" [PyInt 1]) w
  = (Return false,
     {| self := self w; sent := [("set_charge", [PyInt 1])];
        logged := [LogRecord ERROR "Unable to return home: %s"
                     [ArgExc (DeviceException "rejected")]] |}).
Proof. reflexivity. Qed.

(** ** Fan speed *)

(** How [async_set_fan_speed] runs on a named level, on an input that is
    neither a level nor a number, and on a number. *)
Lemma set_fan_speed_named (input : string) (v : Z) (w : World) :
  items_get (Py.capitalize input) FAN_SPEEDS = Some v →
  (async_set_fan_speed input w).2
  = (_try_command "Unable to set fan speed: %s"
       (raw_command "set_suction" [PyInt v]) w).2.
Proof.
  intros H. unfold async_set_fan_speed. rewrite H.
  bind_step. simpl. apply discard_world.
Qed.

Lemma set_fan_speed_number (input : string) (n : Z) (w : World) :
  items_get (Py.capitalize input) FAN_SPEEDS = None →
  Py.int input = Some n →
  (async_set_fan_speed input w).2
  = (_try_command "Unable to set fan speed: %s"
       (raw_command "set_suction" [PyInt n]) w).2.
Proof.
  intros Hn Hi. unfold async_set_fan_speed. rewrite Hn, Hi.
  bind_step. simpl. apply discard_world.
Qed.

Lemma fan_speed_run (w : World) (snapshot : gmap string Z) (speed : Z) :
  vacuum_state (self w) = Some snapshot →
  snapshot !! "suction_grade" = Some speed →
  fan_speed w =
    (Return (if bool_decide (speed = 0) then PyStr "Silent"
             else if bool_decide (speed = 1) then PyStr "Standard"
             else if bool_decide (speed = 2) then PyStr "Medium"
             else if bool_decide (speed = 3) then PyStr "Turbo"
             else PyInt speed), w).
Proof.
  intros Hs Hg. unfold fan_speed, get_self.
  bind_step. rewrite Hs.
  read_item Hs Hg.
  destruct (decide (speed = 0)) as [->|H0]; [reflexivity|].
  destruct (decide (speed = 1)) as [->|H1]; [reflexivity|].
  destruct (decide (speed = 2)) as [->|H2]; [reflexivity|].
  destruct (decide (speed = 3)) as [->|H3]; [reflexivity|].
  rewrite (bool_decide_eq_false_2 (speed = 0) H0),
    (bool_decide_eq_false_2 (speed = 1) H1),
    (bool_decide_eq_false_2 (speed = 2) H2),
    (bool_decide_eq_false_2 (speed = 3) H3).
  rewrite bool_decide_eq_false_2; [done|].
  unfold FAN_SPEEDS. simpl. intros Hin. not_in_literal Hin.
Qed.

(** C8. For each of the names Silent, Standard, Medium and Turbo, the level
    [async_set_fan_speed] sends for the name is shown by [fan_speed] as the
    same name; and for an integer outside [{0, 1, 2, 3}], given as its
    decimal text, the level sent is that integer and [fan_speed] shows the
    integer itself. The set [{0, 1, 2, 3}] is the list of values of
    [FAN_SPEEDS]. *)
Theorem fan_speed_roundtrip (input : string) (level : Z) (shown : pyval)
    (w reader : World) (snapshot : gmap string Z) :
  (pair input level ∈ FAN_SPEEDS ∧ shown = PyStr input)
  ∨ ((level ∉ FAN_SPEEDS.*2) ∧ input = Py.str level ∧ shown = PyInt level) →
  vacuum_state (self reader) = Some snapshot →
  snapshot !! "suction_grade" = Some level →
  sent (async_set_fan_speed input w).2
    = sent w ++ [("set_suction", [PyInt level])]
  ∧ fan_speed reader = (Return shown, reader).
Proof.
  intros Hin Hs Hg.
  rewrite (fan_speed_run reader snapshot level Hs Hg).
  destruct Hin as [[Hmem ->]|(Hout & -> & ->)].
  - unfold FAN_SPEEDS in Hmem.
    repeat (apply elem_of_cons in Hmem as [[= -> ->]|Hmem];
            [split; [erewrite set_fan_speed_named by reflexivity;
                     apply try_command_sent | done]|]).
    by apply elem_of_nil in Hmem.
  - split.
    + rewrite (set_fan_speed_number (Py.str level) level).
      * apply try_command_sent.
      * rewrite capitalize_numeral by apply numeral_str.
        apply numeral_not_a_level, numeral_str.
      * apply int_str.
    + repeat case_bool_decide; subst; try done; exfalso; apply Hout;
        in_literal.
Qed.

Lemma fan_speed_roundtrip_witness :
  let w := fresh (entity obedient None None false) in
  (sent (async_set_fan_speed "Turbo" w).2 = [("set_suction", [PyInt 3])]
   ∧ fan_speed (fresh (entity obedient (Some (snapshot_with 3 0 3 0)) None true))
     = (Return (PyStr "Turbo"),
        fresh (entity obedient (Some (snapshot_with 3 0 3 0)) None true)))
  ∧ (sent (async_set_fan_speed "7" w).2 = [("set_suction", [PyInt 7])]
     ∧ fan_speed (fresh (entity obedient (Some (snapshot_with 3 0 7 0)) None true))
       = (Return (PyInt 7),
          fresh (entity obedient (Some (snapshot_with 3 0 7 0)) None true))).
Proof.
  intros w. split.
  - apply (fan_speed_roundtrip "Turbo" 3 (PyStr "Turbo") w _
             (snapshot_with 3 0 3 0)); [|reflexivity|reflexivity].
    left. split; [|reflexivity]. unfold FAN_SPEEDS. in_literal.
  - apply (fan_speed_roundtrip (Py.str 7) 7 (PyInt 7) w _
             (snapshot_with 3 0 7 0)); [|reflexivity|reflexivity].
    right. split; [|split; reflexivity]. intros Hin. not_in_literal Hin.
Defined.

(** No named level matches [input] when case is ignored. *)
Lemma no_level_ignoring_case (input : string) :
  (∀ name, name ∈ FAN_SPEEDS.*1 → Py.lower input ≠ Py.lower name) →
  items_get (Py.capitalize input) FAN_SPEEDS = None.
Proof.
  intros Hno.
  destruct (items_get (Py.capitalize input) FAN_SPEEDS) as [v|] eqn:E; [|done].
  exfalso. unfold FAN_SPEEDS in E. simpl in E.
  repeat (case_decide as Hname;
    [apply (f_equal Py.lower) in Hname; rewrite lower_capitalize in Hname;
     eapply Hno; [|symmetry; exact Hname]; unfold FAN_SPEEDS; simpl;
     in_literal
    |clear Hname]).
  done.
Qed.

(** C9. For a fan-speed input, a text of ASCII characters, that matches no
    named level when case is ignored and that [int] cannot parse,
    [async_set_fan_speed] logs one error that carries the valid levels and
    returns; nothing is sent to the device, so [set_suction] is never issued
    for such an input. *)
Theorem set_fan_speed_rejects (input : string) (w : World) :
  ascii_text input = true →
  (∀ name, name ∈ FAN_SPEEDS.*1 → Py.lower input ≠ Py.lower name) →
  Py.int input = None →
  async_set_fan_speed input w
  = (Return (),
     record_log
       (LogRecord ERROR
          "Fan speed step not recognized (%s). Valid speeds are: %s"
          [ArgExc (ValueError input);
           ArgNames ["Silent"; "Standard"; "Medium"; "Turbo"]]) w)
  ∧ sent (async_set_fan_speed input w).2 = sent w.
Proof.
  intros _ Hno Hint.
  assert (Hrun : async_set_fan_speed input w
    = (Return (),
       record_log
         (LogRecord ERROR
            "Fan speed step not recognized (%s). Valid speeds are: %s"
            [ArgExc (ValueError input);
             ArgNames ["Silent"; "Standard"; "Medium"; "Turbo"]]) w)).
  { unfold async_set_fan_speed.
    rewrite (no_level_ignoring_case input Hno), Hint. reflexivity. }
  split; [exact Hrun|]. by rewrite Hrun.
Qed.

Lemma set_fan_speed_rejects_witness :
  let w := fresh (entity obedient (Some (snapshot_with 3 0 1 0)) None true) in
  sent (async_set_fan_speed "max" w).2 = []
  ∧ (async_set_fan_speed "max" w).1 = Return ()
  ∧ length (logged (async_set_fan_speed "max" w).2) = 1%nat.
Proof.
  intros w.
  destruct (set_fan_speed_rejects "max" w) as [Hrun Hsent].
  - reflexivity.
  - intros name Hname. unfold FAN_SPEEDS in Hname. simpl in Hname.
    repeat (apply elem_of_cons in Hname as [->|Hname]; [discriminate|]).
    by apply elem_of_nil in Hname.
  - reflexivity.
  - rewrite Hrun. repeat split; reflexivity.
Defined.

(** ** Encoding zones *)

Lemma repeat_loop_run (res : string) (l : list Z) (st : list string * Z) :
  foldl (λ (st : list string * Z) (_ : Z), (st.1 ++ [res], st.2 + 1)) st l
  = (st.1 ++ replicate (length l) res, st.2 + Z.of_nat (length l)).
Proof.
  revert st. induction l as [|x l IH]; intros [acc i]; simpl.
  - by rewrite app_nil_r, Z.add_0_r.
  - rewrite IH. simpl. rewrite <- app_assoc. simpl. f_equal. lia.
Qed.

Lemma range_length (n : Z) : length (Py.range n) = Z.to_nat n.
Proof. unfold Py.range. by rewrite length_fmap, length_seq. Qed.

Lemma zone_round_run (repeats : Z) (acc : list string) (i : Z)
    (z : Z * Z * Z * Z) :
  ModeAware.zone_round repeats (acc, i) z
  = (acc ++ replicate (Z.to_nat repeats) (zone_entry i z),
     i + Z.of_nat (Z.to_nat repeats)).
Proof.
  destruct z as [[[x1 y2] x2] y1]. unfold ModeAware.zone_round.
  rewrite repeat_loop_run, range_length. done.
Qed.

Lemma zone_loops_from (repeats : Z) (zone : list (Z * Z * Z * Z))
    (acc : list string) (i : Z) :
  foldl (ModeAware.zone_round repeats) (acc, i) zone
  = (acc ++ entries_from i (Z.to_nat repeats) zone,
     i + Z.of_nat (length zone * Z.to_nat repeats)).
Proof.
  revert acc i. induction zone as [|z zone IH]; intros acc i; simpl.
  - by rewrite app_nil_r, Z.add_0_r.
  - rewrite zone_round_run, IH. rewrite <- app_assoc. f_equal. lia.
Qed.

Lemma entries_from_length (i : Z) (reps : nat) (zone : list (Z * Z * Z * Z)) :
  length (entries_from i reps zone) = (length zone * reps)%nat.
Proof.
  revert i. induction zone as [|z zone IH]; intros i; simpl; [done|].
  by rewrite length_app, length_replicate, IH.
Qed.

Lemma entries_from_lookup (i : Z) (reps : nat) (zone : list (Z * Z * Z * Z))
    (k r : nat) (z : Z * Z * Z * Z) :
  zone !! k = Some z → (r < reps)%nat →
  entries_from i reps zone !! (k * reps + r)%nat
  = Some (zone_entry (i + Z.of_nat (k * reps)) z).
Proof.
  revert i k. induction zone as [|z0 zone IH]; intros i k Hk Hr; [done|].
  destruct k as [|k]; simpl in *.
  - simplify_eq. rewrite lookup_app_l by (rewrite length_replicate; lia).
    rewrite lookup_replicate_2 by done. by rewrite Z.add_0_r.
  - rewrite lookup_app_r by (rewrite length_replicate; lia).
    rewrite length_replicate.
    replace (reps + k * reps + r - reps)%nat with (k * reps + r)%nat by lia.
    rewrite (IH _ _ Hk Hr). do 2 f_equal. lia.
Qed.

(** The [and] chain of [async_clean_zone] when [set_uploadmap] is answered:
    the second command is [set_zone] with the encoded list. *)
Lemma clean_zone_sends_result (zone : list (Z * Z * Z * Z)) (repeats : Z)
    (w : World) (reply : list Z) :
  _vacuum (self w) (sent w) ("set_uploadmap", [PyInt 1]) = Reply reply →
  ∃ rest,
    sent (ModeAware.async_clean_zone zone repeats w).2
    = sent w ++ [("set_uploadmap", [PyInt 1]);
                 ("set_zone", ModeAware.clean_zone_result zone repeats)]
        ++ rest.
Proof.
  intros Hup. unfold ModeAware.async_clean_zone. rewrite discard_world.
  unfold ModeAware.clean_zone_steps, ModeAware.and_then.
  bind_step. rewrite try_command_run, Hup.
  bind_step. rewrite try_command_run.
  set (zcmd := ("set_zone", ModeAware.clean_zone_result zone repeats)).
  set (w1 := record_sent ("set_uploadmap", [PyInt 1]) w).
  destruct (_vacuum (self w1) (sent w1) zcmd) as [?|e].
  - rewrite try_command_sent. simpl. eexists [_].
    by rewrite <- !app_assoc.
  - destruct (is_DeviceException e); simpl; exists [];
      by rewrite <- !app_assoc.
Qed.

(** C1, as the code has it. The list passed to [set_zone] is the number of
    generated entries followed by the entries: [repeats] entries for each
    zone, in the order of the zones. Every entry of a zone [(x1, y2, x2, y1)]
    is the underscore-join of an index, a fixed 0 and the corners
    [(x1, y1, x1, y2, x2, y2, x2, y1)]; the index of the first entry of a
    zone is the zero-based count of the entries generated before it. The
    index carried by the further repeats of a zone is left open here. *)
Theorem clean_zone_encoding (zone : list (Z * Z * Z * Z)) (repeats : Z) :
  let reps := Z.to_nat repeats in
  ∃ entries : list string,
    ModeAware.clean_zone_result zone repeats
    = PyInt (Z.of_nat (length entries)) :: (PyStr <$> entries)
    ∧ length entries = (length zone * reps)%nat
    ∧ (∀ k r z, zone !! k = Some z → (r < reps)%nat →
         ∃ index,
           entries !! (k * reps + r)%nat = Some (zone_entry index z)
           ∧ (r = 0%nat → index = Z.of_nat (k * reps)))
    ∧ (∀ w reply,
         _vacuum (self w) (sent w) ("set_uploadmap", [PyInt 1]) = Reply reply →
         ∃ rest,
           sent (ModeAware.async_clean_zone zone repeats w).2
           = sent w ++ [("set_uploadmap", [PyInt 1]);
                        ("set_zone", ModeAware.clean_zone_result zone repeats)]
               ++ rest).
Proof.
  cbv zeta. exists (entries_from 0 (Z.to_nat repeats) zone).
  split; [|split; [|split]].
  - unfold ModeAware.clean_zone_result, ModeAware.zone_loops.
    rewrite zone_loops_from, entries_from_length. simpl. done.
  - apply entries_from_length.
  - intros k r z Hk Hr. exists (Z.of_nat (k * Z.to_nat repeats)). split; [|done].
    by rewrite (entries_from_lookup 0 _ zone k r z Hk Hr), Z.add_0_l.
  - intros w reply. apply clean_zone_sends_result.
Qed.

Lemma clean_zone_encoding_witness :
  ∃ entries : list string,
    ModeAware.clean_zone_result [(0, 0, 100, 100); (10, 20, 30, 40)] 2
    = PyInt 4 :: (PyStr <$> entries)
    ∧ entries !! 0%nat = Some "0_0_0_100_0_0_100_0_100_100"
    ∧ entries !! 2%nat = Some "2_0_10_40_10_20_30_20_30_40".
Proof.
  destruct (clean_zone_encoding [(0, 0, 100, 100); (10, 20, 30, 40)] 2)
    as (entries & Hres & Hlen & Hat & _).
  exists entries. split; [by rewrite Hres, Hlen|]. split.
  - destruct (Hat 0%nat 0%nat (0, 0, 100, 100)) as (index & Hi & Hfirst);
      [reflexivity | simpl; lia |].
    rewrite (Hfirst eq_refl) in Hi. exact Hi.
  - destruct (Hat 1%nat 0%nat (10, 20, 30, 40)) as (index & Hi & Hfirst);
      [reflexivity | simpl; lia |].
    rewrite (Hfirst eq_refl) in Hi. exact Hi.
Defined.

(** The design document's example fails on the code: for the zone [(0, 0, 100, 100)],
    read as [(x1, y2, x2, y1)], the corners come out as
    [0_100_0_0_100_0_100_100], and the two entries are the same string. *)
Lemma clean_zone_example_differs :
  ModeAware.clean_zone_result [(0, 0, 100, 100)] 2
    = [PyInt 2; PyStr "0_0_0_100_0_0_100_0_100_100";
       PyStr "0_0_0_100_0_0_100_0_100_100"]
  ∧ ModeAware.clean_zone_result [(0, 0, 100, 100)] 2
    ≠ [PyInt 2; PyStr "0_0_0_0_0_100_100_100_100_0";
       PyStr "1_0_0_0_0_100_100_100_100_0"]
  ∧ sent (ModeAware.async_clean_zone [(0, 0, 100, 100)] 2
            (fresh (entity obedient None None false))).2
    = [("set_uploadmap", [PyInt 1]);
       ("set_zone", [PyInt 2; PyStr "0_0_0_100_0_0_100_0_100_100";
                     PyStr "0_0_0_100_0_0_100_0_100_100"]);
       ("set_mode", [PyInt 3; PyInt 1])].
Proof. split; [reflexivity|]. split; [discriminate|reflexivity]. Qed.

(** * What the operations leave alone *)

(** ** Framing through the monad *)

Section Frames.

Context {B : Type} (view : World → B).

Lemma frames_ret {A} (a : A) : frames view (mret a : M A).
Proof. by intros w. Qed.

Lemma frames_raise {A} (e : exn) : frames view (raise e : M A).
Proof. by intros w. Qed.

Lemma frames_get_self : frames view get_self.
Proof. by intros w. Qed.

Lemma frames_bind {A C} (m : M A) (f : A → M C) :
  frames view m → (∀ a, frames view (f a)) → frames view (m ≫= f).
Proof.
  intros Hm Hf w. unfold mbind, M_bind.
  specialize (Hm w). destruct (m w) as [[a|e] w']; simpl in *.
  - by rewrite Hf.
  - done.
Qed.

Lemma frames_try_except {A} (body : M A)
    (clauses : list ((exn → bool) * (exn → M A))) :
  frames view body →
  Forall (λ clause, ∀ e, frames view (clause.2 e)) clauses →
  frames view (try_except body clauses).
Proof.
  intros Hb Hc w. unfold try_except.
  specialize (Hb w). destruct (body w) as [[a|e] w']; simpl in *; [done|].
  assert (Hsel : ∀ h, select_handler clauses e = Some h → frames view h).
  { clear -Hc. induction Hc as [|[matches handler] rest Hh _ IH]; simpl; [done|].
    intros h. destruct (matches e); [|by apply IH].
    intros [= <-]. apply Hh. }
  destruct (select_handler clauses e) as [h|] eqn:E; [|done].
  by rewrite (Hsel h eq_refl).
Qed.

Lemma frames_vacuum_state_item key : frames view (vacuum_state_item key).
Proof.
  intros w. unfold vacuum_state_item, get_self, mbind, M_bind. simpl.
  destruct (vacuum_state (self w)) as [snapshot|]; [|done].
  by destruct (snapshot !! key).
Qed.

(** A view that neither the log nor the list of sent commands is part of. *)
Hypothesis view_log : ∀ r w, view (record_log r w) = view w.

Lemma frames_LOGGER level m a : frames view (_LOGGER level m a).
Proof. intros w. apply view_log. Qed.

Lemma frames_try_command {A} mask (call : M A) :
  frames view call → frames view (_try_command mask call).
Proof.
  intros Hc. unfold _try_command. apply frames_try_except.
  - apply frames_bind; [done|]. intros ?. apply frames_ret.
  - repeat constructor. intros e. simpl.
    apply frames_bind; [apply frames_LOGGER|]. intros ?. apply frames_ret.
Qed.

Hypothesis view_sent : ∀ c w, view (record_sent c w) = view w.

Lemma frames_raw_command method params : frames view (raw_command method params).
Proof.
  intros w. unfold raw_command.
  destruct (_vacuum (self w) (sent w) (method, params)); apply view_sent.
Qed.

(** A guarded raw call whose value is dropped: the shape of every
    single-command operation. *)
Lemma frames_guarded_call mask method params :
  frames view (_ ← _try_command mask (raw_command method params); mret ()).
Proof.
  apply frames_bind; [|intros ?; apply frames_ret].
  apply frames_try_command, frames_raw_command.
Qed.

End Frames.

(** Walks through a method body, one construct at a time. *)
Ltac frame_step :=
  match goal with
  | |- frames _ (mret _) => apply frames_ret
  | |- frames _ (raise _) => apply frames_raise
  | |- frames _ get_self => apply frames_get_self
  | |- frames _ (vacuum_state_item _) => apply frames_vacuum_state_item
  | |- frames _ (_LOGGER _ _ _) => apply frames_LOGGER; done
  | |- frames _ (raw_command _ _) => apply frames_raw_command; done
  | |- frames _ (set_last_clean_point _) => by intros ?
  | |- frames _ (set_vacuum_state _) => by intros ?
  | |- frames _ (set_available _) => by intros ?
  | |- frames _ (_try_command _ _) => apply frames_try_command; [done|]
  | |- frames _ (try_except _ _) =>
      apply frames_try_except; [|repeat constructor; simpl; intros]
  | |- frames _ (mbind _ _) => apply frames_bind; [|intros]
  | |- frames _ (match ?x with _ => _ end) => destruct x
  end.

Ltac frame := repeat frame_step.

(** ** The getters *)

(** X1. The properties [state], [battery_level], [fan_speed], [available] and
    [device_state_attributes] are read-only: whatever the snapshot holds, and
    also when they raise, they leave every field of the entity as it was and
    hand no command to the device. The log is the only thing they may add
    to. *)
Theorem getters_read_only (T : gmap Z RunState) :
  frames entity_view (state T)
  ∧ frames entity_view battery_level
  ∧ frames entity_view fan_speed
  ∧ frames entity_view available
  ∧ frames entity_view (device_state_attributes T).
Proof.
  repeat apply conj.
  - unfold state, state_lookup. frame.
  - unfold battery_level. frame.
  - unfold fan_speed. frame.
  - unfold available. frame.
  - unfold device_state_attributes, state_lookup. frame.
Qed.

(** ** The commands *)

(** X2. No command operation of either platform file touches what a poll
    established: start, pause, stop, set-fan-speed, return-to-base, locate,
    clean-zone and clean-point leave the cached snapshot and the
    availability flag as they were, whether the device answers, rejects the
    command or cannot be reached. *)
Theorem commands_keep_poll_state :
  frames poll_view Legacy.async_start
  ∧ frames poll_view Legacy.async_pause
  ∧ frames poll_view Legacy.async_stop
  ∧ frames poll_view ModeAware.async_start
  ∧ frames poll_view ModeAware.async_pause
  ∧ frames poll_view ModeAware.async_stop
  ∧ (∀ input, frames poll_view (async_set_fan_speed input))
  ∧ frames poll_view async_return_to_base
  ∧ frames poll_view async_locate
  ∧ (∀ zone repeats, frames poll_view (ModeAware.async_clean_zone zone repeats))
  ∧ (∀ point, frames poll_view (ModeAware.async_clean_point point)).
Proof.
  repeat apply conj; try (apply frames_guarded_call; done).
  - unfold ModeAware.async_start. frame.
  - unfold ModeAware.async_pause. frame.
  - unfold ModeAware.async_stop. frame.
  - intros input. unfold async_set_fan_speed. frame.
  - intros zone repeats.
    unfold ModeAware.async_clean_zone, ModeAware.clean_zone_steps,
      ModeAware.and_then. frame.
  - intros [x y].
    unfold ModeAware.async_clean_point, ModeAware.clean_point_steps,
      ModeAware.and_then. frame.
Qed.

(** X3. The cached point is changed by stop and by clean-point of the
    mode-aware file only: a poll, start, pause, set-fan-speed,
    return-to-base, locate and clean-zone, and the three operations of the
    earlier file, leave it as it was, whatever the device does. *)
Theorem cached_point_kept :
  frames point_view update
  ∧ frames point_view ModeAware.async_start
  ∧ frames point_view ModeAware.async_pause
  ∧ (∀ input, frames point_view (async_set_fan_speed input))
  ∧ frames point_view async_return_to_base
  ∧ frames point_view async_locate
  ∧ (∀ zone repeats, frames point_view (ModeAware.async_clean_zone zone repeats))
  ∧ frames point_view Legacy.async_start
  ∧ frames point_view Legacy.async_pause
  ∧ frames point_view Legacy.async_stop.
Proof.
  repeat apply conj; try (apply frames_guarded_call; done).
  - unfold update. frame.
  - unfold ModeAware.async_start. frame.
  - unfold ModeAware.async_pause. frame.
  - intros input. unfold async_set_fan_speed. frame.
  - intros zone repeats.
    unfold ModeAware.async_clean_zone, ModeAware.clean_zone_steps,
      ModeAware.and_then. frame.
Qed.

(** * Polls and the snapshot they build *)

Lemma dict_zip_absent (keys : list string) (values : list Z) key :
  key ∉ keys → dict (zip keys values) !! key = None.
Proof.
  intros Hk. unfold dict. apply not_elem_of_list_to_map_1.
  intros Hin. apply list_elem_of_fmap in Hin as [[k y] [-> Hin]].
  rewrite elem_of_reverse in Hin.
  apply elem_of_zip_with in Hin as (k' & y' & [= -> ->] & Hin & _).
  by apply Hk.
Qed.

(** With distinct keys, [dict(zip(keys, values))] holds at the key of
    position [i] what [values] holds at position [i], and nothing when
    [values] is too short to have that position. *)
Lemma dict_zip_lookup_at (keys : list string) (values : list Z) i key :
  NoDup keys → keys !! i = Some key →
  dict (zip keys values) !! key = values !! i.
Proof.
  intros Hnd Hk. destruct (values !! i) as [v|] eqn:Hv.
  - by apply dict_zip_lookup with i.
  - unfold dict. apply not_elem_of_list_to_map_1.
    intros Hin. apply list_elem_of_fmap in Hin as [[k y] [-> Hin]].
    rewrite elem_of_reverse in Hin.
    apply list_elem_of_lookup_1 in Hin as [j Hj].
    apply lookup_zip_with_Some in Hj as (k' & y' & [= -> ->] & Hk' & Hy').
    simpl in Hk. assert (j = i) as -> by (eapply NoDup_lookup; eauto).
    congruence.
Qed.

Lemma update_answered_run (w : World) (values : list Z) :
  _vacuum (self w) (sent w) poll = Reply values →
  update w
  = (Return (), with_self (refreshed values (self w)) (record_sent poll w)).
Proof.
  intros Hd. unfold poll in Hd.
  unfold update, try_except, raw_command, mbind, M_bind. by rewrite Hd.
Qed.

(** X4. A poll that is answered builds the snapshot by position and by
    position only: the property at position [i] of [ALL_PROPS] holds the
    value at position [i] of the answer, and is absent when the answer is too
    short to have one; no other key is ever present, so values past the
    fourteenth are dropped. *)
Theorem poll_snapshot_keys (w : World) (values : list Z) :
  _vacuum (self w) (sent w) poll = Reply values →
  ∃ snapshot,
    vacuum_state (self (update w).2) = Some snapshot
    ∧ (∀ i key, ALL_PROPS !! i = Some key → snapshot !! key = values !! i)
    ∧ (∀ key, key ∉ ALL_PROPS → snapshot !! key = None).
Proof.
  intros Hd. rewrite (update_answered_run w values Hd).
  exists (dict (zip ALL_PROPS values)). split; [reflexivity|]. split.
  - intros i key. apply dict_zip_lookup_at, ALL_PROPS_NoDup.
  - intros key. apply dict_zip_absent.
Qed.

Lemma poll_snapshot_keys_witness :
  let w := fresh (__init__ "v" (λ _ _, Reply [5; 4])) in
  ∃ snapshot,
    vacuum_state (self (update w).2) = Some snapshot
    ∧ snapshot !! "run_state" = Some 5
    ∧ snapshot !! "mode" = Some 4
    ∧ snapshot !! "is_mop" = None.
Proof.
  intros w.
  destruct (poll_snapshot_keys w [5; 4] eq_refl) as (snapshot & Hs & Hat & _).
  exists snapshot. split; [exact Hs|].
  split; [exact (Hat 0%nat "run_state" eq_refl)|].
  split; [exact (Hat 1%nat "mode" eq_refl)|].
  exact (Hat 12%nat "is_mop" eq_refl).
Defined.

(** How [state] and [device_state_attributes] run on a snapshot that has no
    [run_state]: the [KeyError] of the lookup is caught, and the handler
    raises it again when it reads the key for its message. *)
Lemma state_without_run_state (T : gmap Z RunState) (w : World)
    (snapshot : gmap string Z) :
  vacuum_state (self w) = Some snapshot →
  snapshot !! "run_state" = None →
  state T w = (Raise (KeyError (PyStr "run_state")), w)
  ∧ device_state_attributes T w = (Raise (KeyError (PyStr "run_state")), w).
Proof.
  intros Hs Hk.
  assert (Hitem : vacuum_state_item "run_state" w
                  = (Raise (KeyError (PyStr "run_state")), w)).
  { unfold vacuum_state_item, get_self, mbind, M_bind. by rewrite Hs, Hk. }
  split.
  - unfold state, get_self. bind_step. rewrite Hs.
    unfold try_except, state_lookup. bind_step. bind_step. rewrite Hitem.
    simpl. bind_step. by rewrite Hitem.
  - unfold device_state_attributes, get_self. bind_step. rewrite Hs.
    unfold try_except, state_lookup. bind_step. bind_step. rewrite Hitem.
    simpl. bind_step. by rewrite Hitem.
Qed.

(** X5. A poll answered with an empty list succeeds: it marks the entity
    available and caches an empty snapshot. On that snapshot [state] and
    [device_state_attributes] raise [KeyError('run_state')] instead of
    returning [None] or the diagnostic text, and start of the mode-aware file
    raises [KeyError('mode')] without sending anything. *)
Theorem empty_answer_then_state (T : gmap Z RunState) (w : World) :
  _vacuum (self w) (sent w) poll = Reply [] →
  let polled := (update w).2 in
  (update w).1 = Return ()
  ∧ _available (self polled) = true
  ∧ vacuum_state (self polled) = Some ∅
  ∧ state T polled = (Raise (KeyError (PyStr "run_state")), polled)
  ∧ device_state_attributes T polled
    = (Raise (KeyError (PyStr "run_state")), polled)
  ∧ ModeAware.async_start polled = (Raise (KeyError (PyStr "mode")), polled).
Proof.
  intros Hd. cbv zeta. rewrite (update_answered_run w [] Hd).
  set (polled := with_self (refreshed [] (self w)) (record_sent poll w)).
  assert (Hs : vacuum_state (self polled) = Some ∅) by reflexivity.
  destruct (state_without_run_state T polled ∅ Hs (lookup_empty _)) as [H1 H2].
  repeat apply conj; done.
Qed.

Lemma empty_answer_then_state_witness :
  let w := fresh (__init__ "v" (λ _ _, Reply [])) in
  _available (self (update w).2) = true
  ∧ (ModeAware.state (update w).2).1 = Raise (KeyError (PyStr "run_state"))
  ∧ (Legacy.state (update w).2).1 = Raise (KeyError (PyStr "run_state")).
Proof.
  intros w.
  destruct (empty_answer_then_state ModeAware.STATE_CODE_TO_STATE w eq_refl)
    as (_ & Ha & _ & Hm & _).
  destruct (empty_answer_then_state Legacy.STATE_CODE_TO_STATE w eq_refl)
    as (_ & _ & _ & Hl & _).
  cbv zeta in *. split; [exact Ha|].
  unfold ModeAware.state, Legacy.state. rewrite Hm, Hl. split; reflexivity.
Defined.

(** * Start, pause and stop outside the point path *)

Lemma guarded_call_sent mask method params w :
  sent ((_ ← _try_command mask (raw_command method params); mret ()) w).2
  = sent w ++ [(method, params)].
Proof. rewrite discard_world. apply try_command_sent. Qed.

Lemma guarded_call_self mask method params w :
  self ((_ ← _try_command mask (raw_command method params); mret ()) w).2
  = self w.
Proof. rewrite discard_world. apply try_command_self. Qed.

(** Outside point mode [async_stop] is one guarded [set_mode] call. *)
Lemma async_stop_set_mode (w : World) (snapshot : gmap string Z) (mode : Z) :
  vacuum_state (self w) = Some snapshot →
  snapshot !! "mode" = Some mode →
  mode ≠ 4 →
  (ModeAware.async_stop w).2
  = (_try_command "Unable to stop: %s"
       (raw_command "set_mode"
          (if bool_decide (mode = 3) then [PyInt 3; PyInt 0] else [PyInt 0]))
       w).2.
Proof.
  intros Hs Hm H4. unfold ModeAware.async_stop. read_item Hs Hm.
  rewrite (bool_decide_eq_false_2 (mode = 4) H4).
  case_bool_decide; bind_step; simpl; apply discard_world.
Qed.

(** X6. Before the first successful poll, when no snapshot is cached, start,
    pause and stop of the mode-aware file raise [TypeError] at their first
    line: nothing is sent to the device, nothing is logged and the cached
    point is not cleared. *)
Theorem mode_aware_needs_a_snapshot (w : World) :
  vacuum_state (self w) = None →
  ModeAware.async_start w = (Raise TypeError, w)
  ∧ ModeAware.async_pause w = (Raise TypeError, w)
  ∧ ModeAware.async_stop w = (Raise TypeError, w).
Proof.
  intros Hs.
  assert (Hitem : vacuum_state_item "mode" w = (Raise TypeError, w)).
  { unfold vacuum_state_item, get_self, mbind, M_bind. by rewrite Hs. }
  repeat apply conj.
  - unfold ModeAware.async_start. bind_step. by rewrite Hitem.
  - unfold ModeAware.async_pause. bind_step. by rewrite Hitem.
  - unfold ModeAware.async_stop. bind_step. by rewrite Hitem.
Qed.

Lemma mode_aware_needs_a_snapshot_witness :
  let w := fresh (entity obedient None (Some (150, 200)) false) in
  (ModeAware.async_start w).1 = Raise TypeError
  ∧ (ModeAware.async_stop w).1 = Raise TypeError
  ∧ sent (ModeAware.async_stop w).2 = []
  ∧ _last_clean_point (self (ModeAware.async_stop w).2) = Some (150, 200).
Proof.
  intros w.
  destruct (mode_aware_needs_a_snapshot w eq_refl) as (Hstart & _ & Hstop).
  rewrite Hstart, Hstop. repeat split; reflexivity.
Defined.

(** X7. Start and pause of the mode-aware file read [is_mop] before they
    branch, so on a snapshot that has [mode] but no [is_mop] (an answer of
    fewer than thirteen values) they raise [KeyError('is_mop')] and send
    nothing, in every mode, also where the selector is not used. Stop reads
    [mode] only and still sends its one command. *)
Theorem start_pause_need_is_mop (w : World) (snapshot : gmap string Z)
    (mode : Z) :
  vacuum_state (self w) = Some snapshot →
  snapshot !! "mode" = Some mode →
  snapshot !! "is_mop" = None →
  ModeAware.async_start w = (Raise (KeyError (PyStr "is_mop")), w)
  ∧ ModeAware.async_pause w = (Raise (KeyError (PyStr "is_mop")), w)
  ∧ ∃ stop, sent (ModeAware.async_stop w).2 = sent w ++ [stop].
Proof.
  intros Hs Hm Hi.
  assert (Hitem : vacuum_state_item "is_mop" w
                  = (Raise (KeyError (PyStr "is_mop")), w)).
  { unfold vacuum_state_item, get_self, mbind, M_bind. by rewrite Hs, Hi. }
  repeat apply conj.
  - unfold ModeAware.async_start. read_item Hs Hm. bind_step. by rewrite Hitem.
  - unfold ModeAware.async_pause. read_item Hs Hm. bind_step. by rewrite Hitem.
  - destruct (decide (mode = 4)) as [->|H4]; eexists.
    + rewrite (async_stop_point w snapshot 4 Hs Hm eq_refl), try_command_sent.
      done.
    + rewrite (async_stop_set_mode w snapshot mode Hs Hm H4), try_command_sent.
      done.
Qed.

Lemma start_pause_need_is_mop_witness :
  let w := fresh (entity obedient (Some (dict (zip ALL_PROPS [3; 4])))
                    (Some (150, 200)) true) in
  (ModeAware.async_start w).1 = Raise (KeyError (PyStr "is_mop"))
  ∧ sent (ModeAware.async_start w).2 = []
  ∧ ∃ stop, sent (ModeAware.async_stop w).2 = [stop].
Proof.
  intros w.
  destruct (start_pause_need_is_mop w (dict (zip ALL_PROPS [3; 4])) 4)
    as (Hstart & _ & Hstop); [reflexivity | reflexivity | reflexivity |].
  rewrite Hstart. split; [reflexivity|]. split; [reflexivity|exact Hstop].
Defined.

(** X8. In edge mode ([mode == 3]) start sends exactly [set_mode [3, 1]] and
    pause exactly [set_mode [3, 3]], whatever [is_mop] is and whether or not
    a point is cached; the entity is left as it was. *)
Theorem edge_mode_start_pause (w : World) (snapshot : gmap string Z)
    (is_mop : Z) :
  vacuum_state (self w) = Some snapshot →
  snapshot !! "mode" = Some 3 →
  snapshot !! "is_mop" = Some is_mop →
  sent (ModeAware.async_start w).2 = sent w ++ [("set_mode", [PyInt 3; PyInt 1])]
  ∧ self (ModeAware.async_start w).2 = self w
  ∧ sent (ModeAware.async_pause w).2 = sent w ++ [("set_mode", [PyInt 3; PyInt 3])]
  ∧ self (ModeAware.async_pause w).2 = self w.
Proof.
  intros Hs Hm Hi.
  assert (Hstart : (ModeAware.async_start w).2
    = (_try_command "Unable to start the vacuum: %s"
         (raw_command "set_mode" [PyInt 3; PyInt 1]) w).2).
  { unfold ModeAware.async_start. read_item Hs Hm. read_item Hs Hi.
    bind_step; unfold get_self. simpl. apply discard_world. }
  assert (Hpause : (ModeAware.async_pause w).2
    = (_try_command "Unable to set pause: %s"
         (raw_command "set_mode" [PyInt 3; PyInt 3]) w).2).
  { unfold ModeAware.async_pause. read_item Hs Hm. read_item Hs Hi.
    bind_step; unfold get_self. simpl. apply discard_world. }
  rewrite Hstart, Hpause, !try_command_sent, !try_command_self. done.
Qed.

Lemma edge_mode_start_pause_witness :
  let w := fresh (entity obedient (Some (snapshot_with 3 3 1 2))
                    (Some (150, 200)) true) in
  sent (ModeAware.async_start w).2 = [("set_mode", [PyInt 3; PyInt 1])]
  ∧ sent (ModeAware.async_pause w).2 = [("set_mode", [PyInt 3; PyInt 3])].
Proof.
  intros w.
  destruct (edge_mode_start_pause w (snapshot_with 3 3 1 2) 2)
    as (Hstart & _ & Hpause & _); [reflexivity | reflexivity | reflexivity |].
  split; assumption.
Defined.

(** X9. Outside point mode ([mode != 4]) stop of the mode-aware file sends
    exactly one command, [set_mode [3, 0]] in edge mode and [set_mode [0]]
    in every other mode, and keeps the cached point and every other field
    of the entity. *)
Theorem stop_outside_point_mode (w : World) (snapshot : gmap string Z)
    (mode : Z) :
  vacuum_state (self w) = Some snapshot →
  snapshot !! "mode" = Some mode →
  mode ≠ 4 →
  sent (ModeAware.async_stop w).2
    = sent w ++ [("set_mode",
                  if bool_decide (mode = 3) then [PyInt 3; PyInt 0]
                  else [PyInt 0])]
  ∧ self (ModeAware.async_stop w).2 = self w.
Proof.
  intros Hs Hm H4.
  rewrite (async_stop_set_mode w snapshot mode Hs Hm H4).
  rewrite try_command_sent, try_command_self. done.
Qed.

Lemma stop_outside_point_mode_witness :
  let w := fresh (entity rejecting (Some (snapshot_with 3 0 1 0))
                    (Some (150, 200)) true) in
  sent (ModeAware.async_stop w).2 = [("set_mode", [PyInt 0])]
  ∧ _last_clean_point (self (ModeAware.async_stop w).2) = Some (150, 200).
Proof.
  intros w.
  destruct (stop_outside_point_mode w (snapshot_with 3 0 1 0) 0)
    as (Hsent & Hself); [reflexivity | reflexivity | done |].
  split; [exact Hsent|]. by rewrite Hself.
Defined.

(** * Operations that do not look at the snapshot *)

(** X10. Start, pause and stop of the earlier file, and return-to-base and
    locate of both files, send one fixed command each, in every world: with
    or without a cached snapshot, in any mode, whatever the device answers.
    None of them changes a field of the entity. *)
Theorem unconditional_commands (w : World) :
  (sent (Legacy.async_start w).2
     = sent w ++ [("set_mode_withroom", [PyInt 0; PyInt 1; PyInt 0])]
   ∧ self (Legacy.async_start w).2 = self w)
  ∧ (sent (Legacy.async_pause w).2
       = sent w ++ [("set_mode_withroom", [PyInt 0; PyInt 2; PyInt 0])]
     ∧ self (Legacy.async_pause w).2 = self w)
  ∧ (sent (Legacy.async_stop w).2 = sent w ++ [("set_mode", [PyInt 0])]
     ∧ self (Legacy.async_stop w).2 = self w)
  ∧ (sent (async_return_to_base w).2 = sent w ++ [("set_charge", [PyInt 1])]
     ∧ self (async_return_to_base w).2 = self w)
  ∧ (sent (async_locate w).2 = sent w ++ [("set_resetpos", [PyInt 1])]
     ∧ self (async_locate w).2 = self w).
Proof.
  repeat apply conj;
    first [apply guarded_call_sent | apply guarded_call_self].
Qed.

(** * Cleaning zones *)

(** The [and] chain of [async_clean_zone], call by call. *)
Lemma clean_zone_steps_run (zone : list (Z * Z * Z * Z)) (repeats : Z)
    (w : World) :
  let mask := "Unable to clean zone: %s" in
  let w1 := record_sent ("set_uploadmap", [PyInt 1]) w in
  let w2 := record_sent ("set_zone", ModeAware.clean_zone_result zone repeats) w1 in
  let w3 := record_sent ("set_mode", [PyInt 3; PyInt 1]) w2 in
  let failed (e : exn) (w' : World) : result bool * World :=
    if is_DeviceException e
    then (Return false, record_log (LogRecord ERROR mask [ArgExc e]) w')
    else (Raise e, w') in
  ModeAware.clean_zone_steps zone repeats w =
    match _vacuum (self w) (sent w) ("set_uploadmap", [PyInt 1]) with
    | Fault e => failed e w1
    | Reply _ =>
        match _vacuum (self w) (sent w1)
                ("set_zone", ModeAware.clean_zone_result zone repeats) with
        | Fault e => failed e w2
        | Reply _ =>
            match _vacuum (self w) (sent w2) ("set_mode", [PyInt 3; PyInt 1]) with
            | Fault e => failed e w3
            | Reply _ => (Return true, w3)
            end
        end
    end.
Proof.
  cbv zeta. unfold ModeAware.clean_zone_steps, ModeAware.and_then.
  bind_step. rewrite try_command_run.
  destruct (_vacuum (self w) (sent w) ("set_uploadmap", [PyInt 1])) as [r1|e1];
    [|by destruct (is_DeviceException e1)].
  bind_step. rewrite try_command_run. simpl self.
  destruct (_vacuum (self w) _ ("set_zone", _)) as [r2|e2];
    [|by destruct (is_DeviceException e2)].
  rewrite try_command_run. simpl self.
  destruct (_vacuum (self w) _ ("set_mode", _)) as [r3|e3]; [done|].
  by destruct (is_DeviceException e3).
Qed.

(** X11. The three commands of clean-zone are sent in order and the
    sequence stops at the first command that is not answered:
    [set_zone] goes out only after [set_uploadmap [1]] was answered and
    [set_mode [3, 1]] only after [set_zone] was; the [and] chain is [True]
    exactly when all three were answered. The entity is left as it was. *)
Theorem clean_zone_short_circuit (zone : list (Z * Z * Z * Z)) (repeats : Z)
    (w : World) :
  let upload := ("set_uploadmap", [PyInt 1]) in
  let set_zone := ("set_zone", ModeAware.clean_zone_result zone repeats) in
  let go := ("set_mode", [PyInt 3; PyInt 1]) in
  let device := _vacuum (self w) in
  let after := (ModeAware.async_clean_zone zone repeats w).2 in
  self after = self w
  ∧ match device (sent w) upload with
    | Fault _ => sent after = sent w ++ [upload]
    | Reply _ =>
        match device (sent w ++ [upload]) set_zone with
        | Fault _ => sent after = sent w ++ [upload; set_zone]
        | Reply _ => sent after = sent w ++ [upload; set_zone; go]
        end
    end
  ∧ ((ModeAware.clean_zone_steps zone repeats w).1 = Return true
     ↔ ∃ r1 r2 r3,
         device (sent w) upload = Reply r1
         ∧ device (sent w ++ [upload]) set_zone = Reply r2
         ∧ device (sent w ++ [upload; set_zone]) go = Reply r3).
Proof.
  cbv zeta. unfold ModeAware.async_clean_zone. rewrite discard_world.
  rewrite clean_zone_steps_run. cbv zeta. simpl sent.
  rewrite <- ?app_assoc. simpl app. unfold command.
  repeat match goal with
    | |- context [match _vacuum ?s ?h ?c with _ => _ end] =>
        destruct (_vacuum s h c) as [?|?]
    | |- context [if is_DeviceException ?e then _ else _] =>
        destruct (is_DeviceException e)
    end.
  all: simpl; rewrite <- ?app_assoc; repeat apply conj; try done.
  all: first [ by eauto 10 | intros (? & ? & ? & ? & ? & ?); discriminate ].
Qed.

Example clean_zone_second_step_rejected :
  let device : Vacuum := λ _ c,
    if decide (c.1 = "set_zone") then Fault (DeviceException "busy")
    else Reply [] in
  let w := fresh (entity device None (Some (1, 2)) false) in
  sent (ModeAware.async_clean_zone [(0, 0, 100, 100)] 1 w).2
  = [("set_uploadmap", [PyInt 1]);
     ("set_zone", [PyInt 1; PyStr "0_0_0_100_0_0_100_0_100_100"])]
  ∧ (ModeAware.clean_zone_steps [(0, 0, 100, 100)] 1 w).1 = Return false.
Proof. split; reflexivity. Qed.

(** X12. The layout of the list passed to [set_zone], entry by entry: its
    head is the number of entries, [len(zone) * repeats]; the entries of the
    zone at position [k] stand at positions [k * repeats + 1] to
    [(k + 1) * repeats], and all of them are the one string built for the
    zone when the loop reached it, whose index field is [k * repeats]. *)
Theorem clean_zone_layout (zone : list (Z * Z * Z * Z)) (repeats : Z) :
  let reps := Z.to_nat repeats in
  let result := ModeAware.clean_zone_result zone repeats in
  length result = S (length zone * reps)
  ∧ result !! 0%nat = Some (PyInt (Z.of_nat (length zone * reps)))
  ∧ ∀ k r z, zone !! k = Some z → (r < reps)%nat →
      result !! S (k * reps + r)
      = Some (PyStr (zone_entry (Z.of_nat (k * reps)) z)).
Proof.
  cbv zeta. unfold ModeAware.clean_zone_result, ModeAware.zone_loops.
  rewrite zone_loops_from. simpl.
  repeat apply conj.
  - by rewrite length_fmap, entries_from_length.
  - done.
  - intros k r z Hk Hr. rewrite list_lookup_fmap.
    by rewrite (entries_from_lookup 0 _ zone k r z Hk Hr), Z.add_0_l.
Qed.

Lemma clean_zone_layout_witness :
  let result := ModeAware.clean_zone_result [(0, 0, 100, 100); (10, 20, 30, 40)] 2 in
  result !! 3%nat = Some (PyStr "2_0_10_40_10_20_30_20_30_40")
  ∧ result !! 4%nat = Some (PyStr "2_0_10_40_10_20_30_20_30_40").
Proof.
  intros result.
  destruct (clean_zone_layout [(0, 0, 100, 100); (10, 20, 30, 40)] 2)
    as (_ & _ & Hat).
  split.
  - apply (Hat 1%nat 0%nat (10, 20, 30, 40)); [reflexivity | simpl; lia].
  - apply (Hat 1%nat 1%nat (10, 20, 30, 40)); [reflexivity | simpl; lia].
Defined.

(** X13. With no zone, or with a repeat count of zero or less, the encoded
    list is just the count [0]; clean-zone does not stop there: it still
    sends [set_uploadmap [1]], and after an answer [set_zone [0]]. *)
Theorem clean_zone_nothing_to_clean (zone : list (Z * Z * Z * Z))
    (repeats : Z) (w : World) (reply : list Z) :
  zone = [] ∨ repeats ≤ 0 →
  _vacuum (self w) (sent w) ("set_uploadmap", [PyInt 1]) = Reply reply →
  ModeAware.clean_zone_result zone repeats = [PyInt 0]
  ∧ ∃ rest,
      sent (ModeAware.async_clean_zone zone repeats w).2
      = sent w ++ [("set_uploadmap", [PyInt 1]); ("set_zone", [PyInt 0])]
          ++ rest.
Proof.
  intros Hnone Hup.
  assert (Hres : ModeAware.clean_zone_result zone repeats = [PyInt 0]).
  { unfold ModeAware.clean_zone_result, ModeAware.zone_loops.
    rewrite zone_loops_from. simpl.
    pose proof (entries_from_length 0 (Z.to_nat repeats) zone) as Hlen.
    assert (length zone * Z.to_nat repeats = 0)%nat as Hz.
    { destruct Hnone as [->|Hr]; [done|]. lia. }
    rewrite Hz in *. apply nil_length_inv in Hlen as ->. done. }
  split; [exact Hres|].
  destruct (clean_zone_sends_result zone repeats w reply Hup) as [rest Hsent].
  exists rest. by rewrite <- Hres.
Qed.

Lemma clean_zone_nothing_to_clean_witness :
  let w := fresh (entity obedient None None false) in
  ModeAware.clean_zone_result [(0, 0, 100, 100)] (-1) = [PyInt 0]
  ∧ ∃ rest,
      sent (ModeAware.async_clean_zone [(0, 0, 100, 100)] (-1) w).2
      = [("set_uploadmap", [PyInt 1]); ("set_zone", [PyInt 0])] ++ rest.
Proof.
  intros w.
  apply (clean_zone_nothing_to_clean [(0, 0, 100, 100)] (-1) w []);
    [right; lia | reflexivity].
Defined.

(** * Fan speed, both ways *)

Lemma upper_char_lower_char c :
  Py.upper_char (Py.lower_char c) = Py.upper_char c.
Proof. destruct c as [[] [] [] [] [] [] [] []]; reflexivity. Qed.

(** [capitalize] sees its argument up to case only. *)
Lemma capitalize_by_lower (a b : string) :
  Py.lower a = Py.lower b → Py.capitalize a = Py.capitalize b.
Proof.
  destruct a as [|c r], b as [|c' r']; simpl; try done.
  intros [= Hc Hr].
  rewrite <- (lower_idem r), <- (lower_idem r'), Hr. f_equal.
  by rewrite <- (upper_char_lower_char c), Hc, upper_char_lower_char.
Qed.

(** X14. A named level is accepted in any casing: for an input that equals
    one of Silent, Standard, Medium, Turbo when case is ignored,
    set-fan-speed sends exactly [set_suction] with the value of that
    level. *)
Theorem fan_speed_name_any_case (input name : string) (level : Z) (w : World) :
  pair name level ∈ FAN_SPEEDS →
  Py.lower input = Py.lower name →
  sent (async_set_fan_speed input w).2
  = sent w ++ [("set_suction", [PyInt level])].
Proof.
  intros Hmem Hlow. apply capitalize_by_lower in Hlow.
  rewrite (set_fan_speed_named input level w); [apply try_command_sent|].
  rewrite Hlow. unfold FAN_SPEEDS in Hmem.
  repeat (apply elem_of_cons in Hmem as [[= -> ->]|Hmem]; [reflexivity|]).
  by apply elem_of_nil in Hmem.
Qed.

Lemma fan_speed_name_any_case_witness :
  let w := fresh (entity obedient None None false) in
  sent (async_set_fan_speed "tURBO" w).2 = [("set_suction", [PyInt 3])]
  ∧ sent (async_set_fan_speed "silent" w).2 = [("set_suction", [PyInt 0])].
Proof.
  intros w. split.
  - apply (fan_speed_name_any_case "tURBO" "Turbo" 3 w); [|reflexivity].
    unfold FAN_SPEEDS. in_literal.
  - apply (fan_speed_name_any_case "silent" "Silent" 0 w); [|reflexivity].
    unfold FAN_SPEEDS. in_literal.
Defined.

(** X15. An input, a text of ASCII characters, that is no named level but
    that [int] parses is sent as the parsed integer, whatever the integer:
    set-fan-speed checks no range, so negative levels and levels far above
    Turbo reach the device in [set_suction]. *)
Theorem fan_speed_number_unchecked (input : string) (n : Z) (w : World) :
  ascii_text input = true →
  (∀ name, name ∈ FAN_SPEEDS.*1 → Py.lower input ≠ Py.lower name) →
  Py.int input = Some n →
  sent (async_set_fan_speed input w).2
  = sent w ++ [("set_suction", [PyInt n])].
Proof.
  intros _ Hno Hint.
  rewrite (set_fan_speed_number input n w (no_level_ignoring_case input Hno) Hint).
  apply try_command_sent.
Qed.

Lemma fan_speed_number_unchecked_witness :
  let w := fresh (entity obedient None None false) in
  sent (async_set_fan_speed " -5 " w).2 = [("set_suction", [PyInt (-5)])]
  ∧ sent (async_set_fan_speed "+1_000" w).2 = [("set_suction", [PyInt 1000])].
Proof.
  intros w. split.
  - apply (fan_speed_number_unchecked " -5 " (-5) w);
      [reflexivity | | reflexivity].
    intros name Hname. unfold FAN_SPEEDS in Hname. simpl in Hname.
    repeat (apply elem_of_cons in Hname as [->|Hname]; [discriminate|]).
    by apply elem_of_nil in Hname.
  - apply (fan_speed_number_unchecked "+1_000" 1000 w);
      [reflexivity | | reflexivity].
    intros name Hname. unfold FAN_SPEEDS in Hname. simpl in Hname.
    repeat (apply elem_of_cons in Hname as [->|Hname]; [discriminate|]).
    by apply elem_of_nil in Hname.
Defined.

(** X16. What [fan_speed] shows can be entered back: for every integer
    [suction_grade] of the snapshot, [fan_speed] returns a value (it never
    fails on its [[0]] subscript), and set-fan-speed on the text of that
    value, the name or the decimal digits, sends that very integer. *)
Theorem shown_fan_speed_sets_itself (speed : Z) (reader w : World)
    (snapshot : gmap string Z) :
  vacuum_state (self reader) = Some snapshot →
  snapshot !! "suction_grade" = Some speed →
  ∃ shown,
    fan_speed reader = (Return shown, reader)
    ∧ sent (async_set_fan_speed (shown_text shown) w).2
      = sent w ++ [("set_suction", [PyInt speed])].
Proof.
  intros Hs Hg. rewrite (fan_speed_run reader snapshot speed Hs Hg).
  eexists. split; [reflexivity|].
  repeat (case_bool_decide as Hc;
    [subst speed; simpl;
     by erewrite set_fan_speed_named by reflexivity; rewrite try_command_sent
    |clear Hc]).
  simpl. rewrite (set_fan_speed_number (Py.str speed) speed).
  - apply try_command_sent.
  - rewrite capitalize_numeral by apply numeral_str.
    apply numeral_not_a_level, numeral_str.
  - apply int_str.
Qed.

Lemma shown_fan_speed_sets_itself_witness :
  let w := fresh (entity obedient None None false) in
  (∃ shown,
     fan_speed (fresh (entity obedient (Some (snapshot_with 3 0 2 0)) None true))
     = (Return shown,
        fresh (entity obedient (Some (snapshot_with 3 0 2 0)) None true))
     ∧ sent (async_set_fan_speed (shown_text shown) w).2
       = [("set_suction", [PyInt 2])])
  ∧ (∃ shown,
       fan_speed (fresh (entity obedient (Some (snapshot_with 3 0 (-4) 0)) None true))
       = (Return shown,
          fresh (entity obedient (Some (snapshot_with 3 0 (-4) 0)) None true))
       ∧ sent (async_set_fan_speed (shown_text shown) w).2
         = [("set_suction", [PyInt (-4)])]).
Proof.
  intros w. split.
  - apply (shown_fan_speed_sets_itself 2 _ w (snapshot_with 3 0 2 0));
      reflexivity.
  - apply (shown_fan_speed_sets_itself (-4) _ w (snapshot_with 3 0 (-4) 0));
      reflexivity.
Defined.

(** * Clean-point, then start or pause *)

(** Whatever the device does with the two commands of clean-point, the
    entity afterwards is the entity before with the point stored. *)
Lemma clean_point_self (w : World) (x y : Z) :
  self (ModeAware.async_clean_point (x, y) w).2
  = {| _name := _name (self w); _vacuum := _vacuum (self w);
       _last_clean_point := Some (x, y);
       vacuum_state := vacuum_state (self w);
       _available := _available (self w) |}.
Proof.
  unfold ModeAware.async_clean_point. rewrite discard_world.
  rewrite clean_point_steps_run. cbv zeta.
  destruct (_vacuum (self w) (sent w) ("set_uploadmap", [PyInt 0])) as [?|e].
  - by rewrite try_command_self.
  - by destruct (is_DeviceException e).
Qed.

(** X17. After clean-point for [(x, y)], while the snapshot says
    [mode == 4], start sends exactly [set_pointclean [1, x, y]] and pause
    exactly [set_pointclean [3, x, y]]: they use the point of the last
    clean-point call, whatever point was cached before and whether or not
    the commands of clean-point were accepted by the device. *)
Theorem clean_point_then_resume (w : World) (snapshot : gmap string Z)
    (is_mop x y : Z) :
  vacuum_state (self w) = Some snapshot →
  snapshot !! "mode" = Some 4 →
  snapshot !! "is_mop" = Some is_mop →
  let cleaned := (ModeAware.async_clean_point (x, y) w).2 in
  sent (ModeAware.async_start cleaned).2
    = sent cleaned ++ [("set_pointclean", [PyInt 1; PyInt x; PyInt y])]
  ∧ sent (ModeAware.async_pause cleaned).2
    = sent cleaned ++ [("set_pointclean", [PyInt 3; PyInt x; PyInt y])].
Proof.
  intros Hs Hm Hi. cbv zeta.
  set (cleaned := (ModeAware.async_clean_point (x, y) w).2).
  assert (Hs' : vacuum_state (self cleaned) = Some snapshot).
  { unfold cleaned. by rewrite clean_point_self. }
  assert (Hp : _last_clean_point (self cleaned) = Some (x, y)).
  { unfold cleaned. by rewrite clean_point_self. }
  split.
  - rewrite (async_start_point cleaned snapshot 4 is_mop Hs' Hm Hi x y eq_refl Hp).
    apply try_command_sent.
  - rewrite (async_pause_point cleaned snapshot 4 is_mop Hs' Hm Hi x y eq_refl Hp).
    apply try_command_sent.
Qed.

Lemma clean_point_then_resume_witness :
  let w := fresh (entity rejecting (Some (snapshot_with 3 4 1 0))
                    (Some (1, 2)) true) in
  let cleaned := (ModeAware.async_clean_point (150, 200) w).2 in
  sent cleaned = [("set_uploadmap", [PyInt 0])]
  ∧ sent (ModeAware.async_pause cleaned).2
    = [("set_uploadmap", [PyInt 0]);
       ("set_pointclean", [PyInt 3; PyInt 150; PyInt 200])].
Proof.
  intros w cleaned.
  destruct (clean_point_then_resume w (snapshot_with 3 4 1 0) 0 150 200)
    as [_ Hpause]; [reflexivity | reflexivity | reflexivity |].
  split; [reflexivity|]. exact Hpause.
Defined.

(** * The attribute view *)

(** X18. [device_state_attributes] on a snapshot with a [run_state]. For a
    code of the table it returns a mapping that holds every field of the
    snapshot unchanged and, under [status], the state that [state] returns
    for the same snapshot. For a code outside the table it returns no
    mapping but the text ["Definition missing for state <code>"], and logs
    nothing, where [state] logs an error. The world is left as it was. *)
Theorem attributes_by_run_state (T : gmap Z RunState) (w : World)
    (snapshot : gmap string Z) (code : Z) :
  vacuum_state (self w) = Some snapshot →
  snapshot !! "run_state" = Some code →
  match T !! code with
  | Some st =>
      ∃ attrs,
        device_state_attributes T w = (Return (Attrs attrs), w)
        ∧ attrs !! "status" = Some (AttrState st)
        ∧ (∀ key, key ≠ "status" → attrs !! key = AttrInt <$> snapshot !! key)
        ∧ state T w = (Return (Some st), w)
  | None =>
      device_state_attributes T w
      = (Return (Diagnostic ("Definition missing for state " +:+ Py.str code)), w)
      ∧ logged (state T w).2
        = logged w ++ [LogRecord ERROR "STATE not supported, state_code: %s"
                         [ArgInt code]]
  end.
Proof.
  intros Hs Hc.
  pose proof (state_run T w snapshot code Hs Hc) as Hstate.
  assert (Hattrs : device_state_attributes T w =
    match T !! code with
    | Some st =>
        (Return (Attrs (<["status" := AttrState st]> ((AttrInt <$> snapshot) ∪ ∅))),
         w)
    | None =>
        (Return (Diagnostic ("Definition missing for state " +:+ Py.str code)), w)
    end).
  { unfold device_state_attributes, get_self. bind_step. rewrite Hs.
    unfold try_except, state_lookup. bind_step. read_item Hs Hc.
    destruct (T !! code) as [st|]; [done|].
    simpl. read_item Hs Hc. done. }
  destruct (T !! code) as [st|].
  - eexists. split; [exact Hattrs|]. split; [apply lookup_insert_eq|].
    split; [|exact Hstate].
    intros key Hkey. rewrite lookup_insert_ne by done.
    by rewrite (right_id_L ∅ (∪)), lookup_fmap.
  - split; [exact Hattrs|]. by rewrite Hstate.
Qed.

Lemma attributes_by_run_state_witness :
  let known := fresh (entity obedient (Some (snapshot_with 5 0 1 0)) None true) in
  let unknown := fresh (entity obedient (Some (snapshot_with 9 0 1 0)) None true) in
  (∃ attrs,
     device_state_attributes ModeAware.STATE_CODE_TO_STATE known
     = (Return (Attrs attrs), known)
     ∧ attrs !! "status" = Some (AttrState STATE_DOCKED)
     ∧ attrs !! "battary_life" = Some (AttrInt 80))
  ∧ device_state_attributes ModeAware.STATE_CODE_TO_STATE unknown
    = (Return (Diagnostic "Definition missing for state 9"), unknown).
Proof.
  intros known unknown. split.
  - pose proof (attributes_by_run_state ModeAware.STATE_CODE_TO_STATE known
                  (snapshot_with 5 0 1 0) 5 eq_refl eq_refl) as H.
    change (ModeAware.STATE_CODE_TO_STATE !! 5) with (Some STATE_DOCKED) in H.
    destruct H as (attrs & Hrun & Hstatus & Hkeys & _).
    exists attrs. split; [exact Hrun|]. split; [exact Hstatus|].
    rewrite (Hkeys "battary_life") by done. reflexivity.
  - pose proof (attributes_by_run_state ModeAware.STATE_CODE_TO_STATE unknown
                  (snapshot_with 9 0 1 0) 9 eq_refl eq_refl) as H.
    change (ModeAware.STATE_CODE_TO_STATE !! 9) with (@None RunState) in H.
    exact (proj1 H).
Defined.
